(** * Celery3D host driver: the transform-and-encode pipeline

    A shallow embedding of [sw/cube_uart.py] (and of the two helpers that
    [sw/test_uart.py] repeats), together with the properties of the
    fixed-point codec, the RGB565 packer, the vector and matrix library,
    the vertex transformer and the wire encoder.

    Numbers.  The Python code computes on [float] (and on [int] constants
    that are promoted to [float] by the first arithmetic operation).  The
    model reads every such number as a real number of [R]: products, sums,
    quotients and square roots are exact, [int(x)] is truncation toward
    zero, and the operations that raise in Python ([x / 0], indexing out
    of range, [math.sqrt] of a negative number, [struct.pack] of a value
    that does not fit) return [None].  Integers are [Z], with [&], [|] and
    [<<] as [Z.land], [Z.lor] and [Z.shiftl] (Python integers are
    unbounded two's-complement, as [Z] is).

    Lists are Python lists read by index ([l !! i]) and rebuilt by
    [<[i := v]>]; the serial port is the sequence of bytes written so far. *)

From Stdlib Require Import ZArith Reals Lra Lia List.
From Stdlib Require Strings.Byte.
From stdpp Require Import base list option.
Import ListNotations.

Open Scope R_scope.

(** ** Python primitives *)

(** [int(x)] on a float: the integer part, rounding toward zero. *)
Definition py_int (x : R) : Z :=
  if Rle_dec 0 x then Zfloor x else Zceil x.

(** [a / b] on floats: [ZeroDivisionError] when the divisor is zero. *)
Definition py_div (a b : R) : option R :=
  if Req_dec_T b 0 then None else Some (a / b).

(** [math.sqrt(x)]: [ValueError] on a negative argument. *)
Definition math_sqrt (x : R) : option R :=
  if Rlt_dec x 0 then None else Some (sqrt x).

(** [range(start, stop, step)] for a positive step. *)
Definition py_range (start stop step : nat) : list nat :=
  map (fun k => (start + k * step)%nat)
      (seq 0 ((stop - start + (step - 1)) / step)).

(** [for x in xs: s = body(s, x)], stopping at the first exception. *)
Fixpoint for_each {S : Type} (xs : list nat) (body : S -> nat -> option S)
    (s : S) : option S :=
  match xs with
  | [] => Some s
  | x :: xs' =>
      match body s x with
      | Some s' => for_each xs' body s'
      | None => None
      end
  end.

(** ** Bytes *)

Abbreviation byte := Byte.byte.

(** The byte whose value is [z mod 256]. *)
Definition byte_of_Z (z : Z) : byte :=
  match Byte.of_N (Z.to_N (z mod 256)) with
  | Some b => b
  | None => Byte.x00
  end.

Definition Z_of_byte (b : byte) : Z := Z.of_N (Byte.to_N b).

(** [bytes([n0, n1, ...])]: [ValueError] unless every item is in [range(256)]. *)
Fixpoint py_bytes (ns : list Z) : option (list byte) :=
  match ns with
  | [] => Some []
  | n :: ns' =>
      if ((0 <=? n) && (n <? 256))%Z
      then option_map (cons (byte_of_Z n)) (py_bytes ns')
      else None
  end.

(** The [width] low-order bytes of [n], least significant first. *)
Fixpoint le_bytes (width : nat) (n : Z) : list byte :=
  match width with
  | O => []
  | S w => byte_of_Z n :: le_bytes w (Z.shiftr n 8)
  end.

(** The unsigned integer a little-endian byte string stands for. *)
Fixpoint le_value (bs : list byte) : Z :=
  match bs with
  | [] => 0%Z
  | b :: bs' => (Z_of_byte b + 256 * le_value bs')%Z
  end.

(** One unsigned field of [struct.pack('<...')]: [struct.error] when the
    argument is outside [0, 2^(8*width)). *)
Definition pack_uint (width : nat) (n : Z) : option (list byte) :=
  if ((0 <=? n) && (n <? 2 ^ (8 * Z.of_nat width)))%Z
  then Some (le_bytes width n)
  else None.

(** [struct.pack('<' + str(count) + fmt, *vals)] for an unsigned format of
    [width] bytes: [struct.error] when the number of arguments is not
    [count] or one of them is out of range. *)
Fixpoint pack_uints (width : nat) (vals : list Z) : option (list byte) :=
  match vals with
  | [] => Some []
  | n :: vals' =>
      match pack_uint width n, pack_uints width vals' with
      | Some bs, Some rest => Some (bs ++ rest)
      | _, _ => None
      end
  end.

Definition struct_pack (count width : nat) (vals : list Z) : option (list byte) :=
  if Nat.eqb (length vals) count then pack_uints width vals else None.

(** ** Constants of [cube_uart.py] *)

Definition SCREEN_WIDTH : Z := 64.
Definition SCREEN_HEIGHT : Z := 64.

Definition FP_FRAC_BITS : Z := 16.

Definition CMD_CLEAR_FB : Z := 0x01.
Definition CMD_CLEAR_DEPTH : Z := 0x02.
Definition CMD_TRIANGLE : Z := 0x03.
Definition CMD_SET_CONFIG : Z := 0x04.

Definition CFG_TEX_ENABLE : Z := 0x01.
Definition CFG_DEPTH_TEST : Z := 0x02.
Definition CFG_DEPTH_WRITE : Z := 0x04.
Definition CFG_BLEND_ENABLE : Z := 0x08.

(** ** Fixed-point conversion *)

(** [val = int(f * (1 << FP_FRAC_BITS)); return val & 0xFFFFFFFF] *)
Definition float_to_fp (f : R) : Z :=
  let val := py_int (f * IZR (Z.shiftl 1 FP_FRAC_BITS)) in
  Z.land val 0xFFFFFFFF.

(** [(ri << 11) | (gi << 5) | bi] with [ri = int(min(r, 1.0) * 31)] and so on. *)
Definition pack_rgb565 (r g b : R) : Z :=
  let ri := py_int (Rmin r 1.0 * 31) in
  let gi := py_int (Rmin g 1.0 * 63) in
  let bi := py_int (Rmin b 1.0 * 31) in
  Z.lor (Z.lor (Z.shiftl ri 11) (Z.shiftl gi 5)) bi.

(** The two helpers as [test_uart.py] writes them. *)
Module TestUart.

Definition pack_rgb565 (r g b : R) : Z :=
  let ri := py_int (Rmin r 1.0 * 31) in
  let gi := py_int (Rmin g 1.0 * 63) in
  let bi := py_int (Rmin b 1.0 * 31) in
  Z.lor (Z.lor (Z.shiftl ri 11) (Z.shiftl gi 5)) bi.

Definition float_to_fp (f : R) : Z :=
  let val := py_int (f * 65536) in
  Z.land val 0xFFFFFFFF.

End TestUart.

(** Reading a 32-bit pattern as signed Q15.16: the pattern as a two's
    complement integer, divided by [2^16].  (The driver only encodes; this
    is the decoding the receiving side applies.) *)
Definition fp_signed (p : Z) : Z :=
  if (p <? 2 ^ 31)%Z then p else (p - 2 ^ 32)%Z.

Definition fp_to_float (p : Z) : R := IZR (fp_signed p) / 65536.

(** ** 3D math library *)

(** A vector is a Python list of numbers, a matrix a list of rows. *)
Abbreviation vec := (list R).
Abbreviation mat := (list (list R)).

(** [m[i][j]] *)
Definition mat_get (m : mat) (i j : nat) : option R :=
  row ← m !! i; row !! j.

(** [m[i][j] = v]: [IndexError] when a row or a column is missing. *)
Definition mat_set (m : mat) (i j : nat) (v : R) : option mat :=
  row ← m !! i;
  _ ← row !! j;
  Some (<[i := <[j := v]> row]> m).

Definition mat4_identity : mat :=
  [ [1; 0; 0; 0];
    [0; 1; 0; 0];
    [0; 0; 1; 0];
    [0; 0; 0; 1] ].

(** [[[0]*4 for _ in range(4)]] *)
Definition mat4_zeros : mat := replicate 4 (replicate 4 0).

(** [result[i][j] += a[i][k] * b[k][j]] *)
Definition mat4_multiply_step (a b : mat) (i j : nat) (result : mat) (k : nat)
    : option mat :=
  cur ← mat_get result i j;
  aik ← mat_get a i k;
  bkj ← mat_get b k j;
  mat_set result i j (cur + aik * bkj).

Definition mat4_multiply (a b : mat) : option mat :=
  for_each (py_range 0 4 1)
    (fun result i =>
       for_each (py_range 0 4 1)
         (fun result j =>
            for_each (py_range 0 4 1) (mat4_multiply_step a b i j) result)
         result)
    mat4_zeros.

(** One row of [mat4_transform]:
    [m[i][0]*v[0] + m[i][1]*v[1] + m[i][2]*v[2] + m[i][3]*v[3]]. *)
Definition mat4_transform_row (m : mat) (v : vec) (i : nat) : option R :=
  mi0 ← mat_get m i 0; v0 ← v !! 0%nat;
  mi1 ← mat_get m i 1; v1 ← v !! 1%nat;
  mi2 ← mat_get m i 2; v2 ← v !! 2%nat;
  mi3 ← mat_get m i 3; v3 ← v !! 3%nat;
  Some (mi0 * v0 + mi1 * v1 + mi2 * v2 + mi3 * v3).

Definition mat4_transform (m : mat) (v : vec) : option vec :=
  c0 ← mat4_transform_row m v 0;
  c1 ← mat4_transform_row m v 1;
  c2 ← mat4_transform_row m v 2;
  c3 ← mat4_transform_row m v 3;
  Some [c0; c1; c2; c3].

Definition vec3_dot (a b : vec) : option R :=
  a0 ← a !! 0%nat; b0 ← b !! 0%nat;
  a1 ← a !! 1%nat; b1 ← b !! 1%nat;
  a2 ← a !! 2%nat; b2 ← b !! 2%nat;
  Some (a0 * b0 + a1 * b1 + a2 * b2).

Definition vec3_sub (a b : vec) : option vec :=
  a0 ← a !! 0%nat; b0 ← b !! 0%nat;
  a1 ← a !! 1%nat; b1 ← b !! 1%nat;
  a2 ← a !! 2%nat; b2 ← b !! 2%nat;
  Some [a0 - b0; a1 - b1; a2 - b2].

Definition vec3_cross (a b : vec) : option vec :=
  a0 ← a !! 0%nat; a1 ← a !! 1%nat; a2 ← a !! 2%nat;
  b0 ← b !! 0%nat; b1 ← b !! 1%nat; b2 ← b !! 2%nat;
  Some [a1 * b2 - a2 * b1; a2 * b0 - a0 * b2; a0 * b1 - a1 * b0].

Definition vec3_scale (v : vec) (s : R) : option vec :=
  v0 ← v !! 0%nat; v1 ← v !! 1%nat; v2 ← v !! 2%nat;
  Some [v0 * s; v1 * s; v2 * s].

Definition vec3_length (v : vec) : option R :=
  d ← vec3_dot v v; math_sqrt d.

(** [if length > 0.0001: return vec3_scale(v, 1.0 / length)], else [v] itself. *)
Definition vec3_normalize (v : vec) : option vec :=
  len ← vec3_length v;
  if Rgt_dec len 0.0001
  then s ← py_div 1.0 len; vec3_scale v s
  else Some v.

Definition mat4_look_at (eye target up : vec) : option mat :=
  d ← vec3_sub target eye;
  f ← vec3_normalize d;
  c ← vec3_cross f up;
  r ← vec3_normalize c;
  u ← vec3_cross r f;
  let m := mat4_identity in
  r0 ← r !! 0%nat; m ← mat_set m 0 0 r0;
  r1 ← r !! 1%nat; m ← mat_set m 0 1 r1;
  r2 ← r !! 2%nat; m ← mat_set m 0 2 r2;
  u0 ← u !! 0%nat; m ← mat_set m 1 0 u0;
  u1 ← u !! 1%nat; m ← mat_set m 1 1 u1;
  u2 ← u !! 2%nat; m ← mat_set m 1 2 u2;
  f0 ← f !! 0%nat; m ← mat_set m 2 0 (- f0);
  f1 ← f !! 1%nat; m ← mat_set m 2 1 (- f1);
  f2 ← f !! 2%nat; m ← mat_set m 2 2 (- f2);
  re ← vec3_dot r eye; m ← mat_set m 0 3 (- re);
  ue ← vec3_dot u eye; m ← mat_set m 1 3 (- ue);
  fe ← vec3_dot f eye; m ← mat_set m 2 3 fe;
  Some m.

(** ** Cube geometry *)

Definition CUBE_POSITIONS : list vec :=
  [ [-1; -1; 1]; [1; -1; 1]; [1; 1; 1]; [-1; 1; 1];
    [1; -1; -1]; [-1; -1; -1]; [-1; 1; -1]; [1; 1; -1];
    [-1; 1; 1]; [1; 1; 1]; [1; 1; -1]; [-1; 1; -1];
    [-1; -1; -1]; [1; -1; -1]; [1; -1; 1]; [-1; -1; 1];
    [1; -1; 1]; [1; -1; -1]; [1; 1; -1]; [1; 1; 1];
    [-1; -1; -1]; [-1; -1; 1]; [-1; 1; 1]; [-1; 1; -1] ].

Definition CUBE_UVS : list vec :=
  [ [0; 1]; [1; 1]; [1; 0]; [0; 0];
    [0; 1]; [1; 1]; [1; 0]; [0; 0];
    [0; 1]; [1; 1]; [1; 0]; [0; 0];
    [0; 1]; [1; 1]; [1; 0]; [0; 0];
    [0; 1]; [1; 1]; [1; 0]; [0; 0];
    [0; 1]; [1; 1]; [1; 0]; [0; 0] ].

Definition FACE_COLORS : list vec :=
  [ [1.0; 0.8; 0.8];
    [0.8; 1.0; 0.8];
    [0.8; 0.8; 1.0];
    [1.0; 1.0; 0.8];
    [1.0; 0.8; 1.0];
    [0.8; 1.0; 1.0] ].

Definition CUBE_INDICES : list nat :=
  [ 0; 1; 2; 0; 2; 3;
    4; 5; 6; 4; 6; 7;
    8; 9; 10; 8; 10; 11;
    12; 13; 14; 12; 14; 15;
    16; 17; 18; 16; 18; 19;
    20; 21; 22; 20; 22; 23 ]%nat.

(** ** Vertex transformation *)

(** The vertex record [transform_vertex] returns and [send_vertex] reads:
    a dictionary with exactly the ten keys ['x'] ... ['a'], here a record
    with one field per key. *)
Record DeviceVertex : Type := mkDeviceVertex {
  vx : R; vy : R; vz : R; vw : R;
  vu : R; vv : R;
  vr : R; vg : R; vb : R;
  va : R
}.

Definition transform_vertex (pos uv color : vec) (mvp : mat)
    : option DeviceVertex :=
  p0 ← pos !! 0%nat; p1 ← pos !! 1%nat; p2 ← pos !! 2%nat;
  clip ← mat4_transform mvp [p0; p1; p2; 1.0];
  clip3 ← clip !! 3%nat;
  inv_w ← py_div 1.0 clip3;
  clip0 ← clip !! 0%nat; let ndc_x := clip0 * inv_w in
  clip1 ← clip !! 1%nat; let ndc_y := clip1 * inv_w in
  clip2 ← clip !! 2%nat; let ndc_z := clip2 * inv_w in
  let x := (ndc_x + 1.0) * 0.5 * IZR SCREEN_WIDTH in
  let y := (1.0 - ndc_y) * 0.5 * IZR SCREEN_HEIGHT in
  let z := (ndc_z + 1.0) * 0.5 in
  let w := inv_w * 16.0 in
  uv0 ← uv !! 0%nat; uv1 ← uv !! 1%nat;
  color0 ← color !! 0%nat; color1 ← color !! 1%nat; color2 ← color !! 2%nat;
  Some {| vx := x; vy := y; vz := z; vw := w;
          vu := uv0; vv := uv1;
          vr := color0; vg := color1; vb := color2;
          va := 1.0 |}.

(** ** UART commands *)

(** The serial port, as far as the driver can tell: the bytes it has
    written, oldest first. *)
Record Serial : Type := mkSerial { written : list byte }.

(** [ser.write(data)] *)
Definition ser_write (ser : Serial) (data : list byte) : Serial :=
  {| written := written ser ++ data |}.

Definition send_clear_fb (ser : Serial) (color_rgb565 : Z) : option Serial :=
  op ← py_bytes [CMD_CLEAR_FB];
  let ser := ser_write ser op in
  data ← struct_pack 1 2 [color_rgb565];
  Some (ser_write ser data).

Definition send_clear_depth (ser : Serial) : option Serial :=
  op ← py_bytes [CMD_CLEAR_DEPTH];
  Some (ser_write ser op).

Definition send_config (ser : Serial) (flags : Z) : option Serial :=
  data ← py_bytes [CMD_SET_CONFIG; flags];
  Some (ser_write ser data).

(** [struct.pack('<10I', float_to_fp(v['x']), ..., float_to_fp(v['a']))] *)
Definition send_vertex (ser : Serial) (v : DeviceVertex) : option Serial :=
  data ← struct_pack 10 4
    [ float_to_fp (vx v); float_to_fp (vy v); float_to_fp (vz v);
      float_to_fp (vw v); float_to_fp (vu v); float_to_fp (vv v);
      float_to_fp (vr v); float_to_fp (vg v); float_to_fp (vb v);
      float_to_fp (va v) ];
  Some (ser_write ser data).

Definition send_triangle (ser : Serial) (v0 v1 v2 : DeviceVertex)
    : option Serial :=
  op ← py_bytes [CMD_TRIANGLE];
  let ser := ser_write ser op in
  ser ← send_vertex ser v0;
  ser ← send_vertex ser v1;
  send_vertex ser v2.

(** ** The per-frame render loop of [main] *)

(** The body of [for i in range(0, 36, 3)] up to the call of
    [send_triangle]: the three device vertices of the triangle whose first
    index is at position [i] of [CUBE_INDICES]. *)
Definition cube_triangle (mvp : mat) (i : nat)
    : option (DeviceVertex * DeviceVertex * DeviceVertex) :=
  let face := (i / 6)%nat in
  color ← FACE_COLORS !! face;
  i0 ← CUBE_INDICES !! i;
  i1 ← CUBE_INDICES !! (i + 1)%nat;
  i2 ← CUBE_INDICES !! (i + 2)%nat;
  p0 ← CUBE_POSITIONS !! i0; t0 ← CUBE_UVS !! i0;
  v0 ← transform_vertex p0 t0 color mvp;
  p1 ← CUBE_POSITIONS !! i1; t1 ← CUBE_UVS !! i1;
  v1 ← transform_vertex p1 t1 color mvp;
  p2 ← CUBE_POSITIONS !! i2; t2 ← CUBE_UVS !! i2;
  v2 ← transform_vertex p2 t2 color mvp;
  Some (v0, v1, v2).

(** The whole loop: the twelve triangles, transformed and sent in order. *)
Definition render_cube (ser : Serial) (mvp : mat) : option Serial :=
  for_each (py_range 0 36 3)
    (fun ser i =>
       match cube_triangle mvp i with
       | Some (v0, v1, v2) => send_triangle ser v0 v1 v2
       | None => None
       end)
    ser.


(** The ten fields of a vertex in wire order. *)
Definition vertex_fields (v : DeviceVertex) : list R :=
  [vx v; vy v; vz v; vw v; vu v; vv v; vr v; vg v; vb v; va v].

(** ** Projection, rotations and the frame set-up of [main] *)

Definition mat4_perspective (fov_y aspect near far : R) : option mat :=
  let tan_half_fov := tan (fov_y / 2.0) in
  let m := mat4_zeros in
  m00 ← py_div 1.0 (aspect * tan_half_fov); m ← mat_set m 0 0 m00;
  m11 ← py_div 1.0 tan_half_fov; m ← mat_set m 1 1 m11;
  m22 ← py_div (- (far + near)) (far - near); m ← mat_set m 2 2 m22;
  m23 ← py_div (- (2.0 * far * near)) (far - near); m ← mat_set m 2 3 m23;
  m ← mat_set m 3 2 (- 1.0);
  Some m.

Definition mat4_rotate_x (angle : R) : option mat :=
  let m := mat4_identity in
  let c := cos angle in
  let s := sin angle in
  m ← mat_set m 1 1 c; m ← mat_set m 1 2 (- s);
  m ← mat_set m 2 1 s; m ← mat_set m 2 2 c;
  Some m.

Definition mat4_rotate_y (angle : R) : option mat :=
  let m := mat4_identity in
  let c := cos angle in
  let s := sin angle in
  m ← mat_set m 0 0 c; m ← mat_set m 0 2 s;
  m ← mat_set m 2 0 (- s); m ← mat_set m 2 2 c;
  Some m.

(** [angle = (frame % 60) / 60.0 * 2.0 * math.pi] *)
Definition frame_angle (frame : nat) : R :=
  INR (frame mod 60) / 60.0 * 2.0 * PI.

(** The matrices of one frame: [model], then [mv], then [mvp]. *)
Definition frame_mvp (proj view : mat) (frame : nat) : option mat :=
  let angle := frame_angle frame in
  ry ← mat4_rotate_y angle;
  rx ← mat4_rotate_x (angle * 0.7);
  model ← mat4_multiply ry rx;
  mv ← mat4_multiply view model;
  mat4_multiply proj mv.

(** One iteration of [while True]: the matrices, the two clears and the
    twelve triangles. *)
Definition render_frame (ser : Serial) (proj view : mat) (bg_color : Z)
    (frame : nat) : option Serial :=
  mvp ← frame_mvp proj view frame;
  ser ← send_clear_fb ser bg_color;
  ser ← send_clear_depth ser;
  render_cube ser mvp.

(** What [main] computes once, before the loop. *)
Definition main_config : Z := Z.lor CFG_DEPTH_TEST CFG_DEPTH_WRITE.

Definition main_proj : option mat :=
  let aspect := IZR SCREEN_WIDTH / IZR SCREEN_HEIGHT in
  mat4_perspective (60.0 * PI / 180.0) aspect 0.1 100.0.

Definition main_view : option mat :=
  mat4_look_at [0; 2; 5] [0; 0; 0] [0; 1; 0].

Definition main_bg_color : Z := pack_rgb565 0.1 0.1 0.25.

(** [main], from the set-up to the end of one iteration of the loop. *)
Definition main_frame (ser : Serial) (frame : nat) : option Serial :=
  proj ← main_proj;
  view ← main_view;
  render_frame ser proj view main_bg_color frame.

(** The line speed [main] opens the port with and the pacing interval
    of its loop, in seconds. *)
Definition BAUD_RATE : Z := 115200.
Definition min_frame_time : R := 0.15.

(** ** Specification vocabulary *)

(** [n] is [x] truncated toward zero: the integer of largest magnitude
    between [0] and [x]. *)
Definition truncates (x : R) (n : Z) : Prop :=
  (0 <= x -> IZR n <= x < IZR n + 1) /\
  (x < 0 -> IZR n - 1 < x <= IZR n).

(** A well-formed 4x4 matrix: four rows of four numbers. *)
Definition is_mat4 (m : mat) : Prop :=
  length m = 4%nat /\ Forall (fun row => length row = 4%nat) m.

(** The Euclidean norm of a 3-vector given by its components. *)
Definition norm3 (x y z : R) : R := sqrt (x * x + y * y + z * z).



(** Entry [(i, j)] of a matrix, for stating what a product contains. *)
Definition mat_entry (m : mat) (i j : nat) : R := nth j (nth i m []) 0.

(** The row-by-column sum that defines entry [(i, j)] of a 4x4 product. *)
Definition row_by_column (a b : mat) (i j : nat) : R :=
  mat_entry a i 0 * mat_entry b 0 j + mat_entry a i 1 * mat_entry b 1 j +
  mat_entry a i 2 * mat_entry b 2 j + mat_entry a i 3 * mat_entry b 3 j.

(** Component [i] of [mvp] applied to the homogeneous point [(x, y, z, 1)]. *)
Definition clip_coord (mvp : mat) (x y z : R) (i : nat) : R :=
  mat_entry mvp i 0 * x + mat_entry mvp i 1 * y +
  mat_entry mvp i 2 * z + mat_entry mvp i 3 * 1.

(** The 40-byte wire record of a vertex: its ten fields, each encoded by
    [float_to_fp] and laid out as four bytes, least significant first. *)
Definition vertex_record (v : DeviceVertex) : list byte :=
  flat_map (fun f => le_bytes 4 (float_to_fp f)) (vertex_fields v).


(** A matrix has a 4x4 upper-left block when [m[i][j]] exists for all
    [i, j < 4]. *)
Definition has_block4 (m : mat) : Prop :=
  forall i j : nat, (i < 4)%nat -> (j < 4)%nat -> is_Some (mat_get m i j).

(** A device vertex that is on the 64x64 screen, with depth in [0, 1] and
    a perspective weight between 2 and 16/3. *)
Definition on_screen (dv : DeviceVertex) : Prop :=
  0 <= vx dv <= 64 /\ 0 <= vy dv <= 64 /\ 0 <= vz dv <= 1 /\
  2 < vw dv < 16 / 3.

(** * Properties *)

(** ** Truncation *)

Lemma py_int_truncates (x : R) : truncates x (py_int x).
Proof.
  unfold truncates, py_int.
  destruct (Rle_dec 0 x) as [Hx | Hx]; split; intros H; try lra.
  - apply Zfloor_bound.
  - apply Zceil_bound.
Qed.

Lemma truncates_unique (x : R) (n m : Z) :
  truncates x n -> truncates x m -> n = m.
Proof.
  intros [Hn1 Hn2] [Hm1 Hm2].
  destruct (Rle_dec 0 x) as [Hx | Hx].
  - specialize (Hn1 Hx). specialize (Hm1 Hx).
    assert (IZR n < IZR (m + 1)) by (rewrite plus_IZR; lra).
    assert (IZR m < IZR (n + 1)) by (rewrite plus_IZR; lra).
    apply lt_IZR in H, H0. lia.
  - assert (Hx' : x < 0) by lra.
    specialize (Hn2 Hx'). specialize (Hm2 Hx').
    assert (IZR (n - 1) < IZR m) by (rewrite minus_IZR; lra).
    assert (IZR (m - 1) < IZR n) by (rewrite minus_IZR; lra).
    apply lt_IZR in H, H0. lia.
Qed.

Lemma py_int_eq (x : R) (n : Z) : truncates x n -> py_int x = n.
Proof. intros H. apply (truncates_unique x); [apply py_int_truncates | exact H]. Qed.

Lemma py_int_IZR (n : Z) : py_int (IZR n) = n.
Proof. apply py_int_eq. split; intros _; lra. Qed.

Lemma py_int_nonneg (x : R) : 0 <= x -> (0 <= py_int x)%Z.
Proof.
  intros Hx. destruct (py_int_truncates x) as [H _]. specialize (H Hx).
  assert (IZR (-1) < IZR (py_int x)) by lra.
  apply lt_IZR in H0. lia.
Qed.

(** Truncation is monotone below an integer bound. *)
Lemma py_int_le_bound (x : R) (k : Z) : x <= IZR k -> (py_int x <= k)%Z.
Proof.
  intros Hx. destruct (py_int_truncates x) as [H1 H2].
  destruct (Rle_dec 0 x) as [H0 | H0].
  - specialize (H1 H0). apply le_IZR. lra.
  - assert (Hneg : x < 0) by lra. specialize (H2 Hneg).
    assert (IZR (py_int x - 1) < IZR k) by (rewrite minus_IZR; lra).
    apply lt_IZR in H. lia.
Qed.

Lemma py_int_lt_bound (x : R) (k : Z) : (0 < k)%Z -> x < IZR k -> (py_int x < k)%Z.
Proof.
  intros Hk Hx. destruct (py_int_truncates x) as [H1 H2].
  destruct (Rle_dec 0 x) as [H0 | H0].
  - specialize (H1 H0). apply lt_IZR. lra.
  - assert (Hneg : x < 0) by lra. specialize (H2 Hneg).
    assert (IZR (py_int x - 1) < IZR 0) by (rewrite minus_IZR; lra).
    apply lt_IZR in H. lia.
Qed.

Lemma py_int_ge_bound (x : R) (k : Z) : IZR k <= x -> (k <= py_int x)%Z.
Proof.
  intros Hx. destruct (py_int_truncates x) as [H1 H2].
  destruct (Rle_dec 0 x) as [H0 | H0].
  - specialize (H1 H0).
    assert (IZR k < IZR (py_int x + 1)) by (rewrite plus_IZR; lra).
    apply lt_IZR in H. lia.
  - assert (Hneg : x < 0) by lra. specialize (H2 Hneg).
    apply le_IZR. lra.
Qed.

(** The distance between a number and its truncation is below one. *)
Lemma py_int_error (x : R) : Rabs (IZR (py_int x) - x) < 1.
Proof.
  destruct (py_int_truncates x) as [H1 H2].
  apply Rabs_def1; destruct (Rle_dec 0 x) as [H0 | H0];
    try (specialize (H1 H0); lra);
    assert (Hneg : x < 0) by lra; specialize (H2 Hneg); lra.
Qed.

(** ** Fixed-point codec *)

Lemma mask32_mod (n : Z) : Z.land n 0xFFFFFFFF = (n mod 2 ^ 32)%Z.
Proof. change 0xFFFFFFFF%Z with (Z.ones 32). apply Z.land_ones. lia. Qed.

Lemma float_to_fp_mod (f : R) :
  float_to_fp f = (py_int (f * 65536) mod 2 ^ 32)%Z.
Proof. unfold float_to_fp. cbv zeta. rewrite mask32_mod. reflexivity. Qed.

Lemma float_to_fp_range (f : R) : (0 <= float_to_fp f < 2 ^ 32)%Z.
Proof. rewrite float_to_fp_mod. apply Z.mod_pos_bound. lia. Qed.

(** Both scripts define the same encoder. *)
Lemma test_uart_float_to_fp (f : R) : TestUart.float_to_fp f = float_to_fp f.
Proof. reflexivity. Qed.

Lemma test_uart_pack_rgb565 (r g b : R) :
  TestUart.pack_rgb565 r g b = pack_rgb565 r g b.
Proof. reflexivity. Qed.

Lemma fp_signed_mod (n : Z) :
  (- 2 ^ 31 <= n < 2 ^ 31)%Z -> fp_signed (n mod 2 ^ 32) = n.
Proof.
  intros Hn. unfold fp_signed.
  destruct (Z.ltb_spec (n mod 2 ^ 32) (2 ^ 31)) as [H | H].
  - destruct (Z.neg_nonneg_cases n) as [Hneg | Hpos].
    + rewrite <- (Z.mod_add n 1 (2 ^ 32)) in H by lia.
      rewrite Z.mod_small in H by lia. lia.
    + apply Z.mod_small. lia.
  - destruct (Z.neg_nonneg_cases n) as [Hneg | Hpos].
    + rewrite <- (Z.mod_add n 1 (2 ^ 32)) by lia.
      rewrite Z.mod_small by lia. lia.
    + rewrite Z.mod_small in H by lia. lia.
Qed.

Lemma float_to_fp_decode (x : R) :
  -32768 <= x < 32768 ->
  fp_signed (float_to_fp x) = py_int (x * 65536).
Proof.
  intros Hx. rewrite float_to_fp_mod. apply fp_signed_mod. split.
  - apply (py_int_ge_bound _ (- 2 ^ 31)). change (- 2 ^ 31)%Z with (-2147483648)%Z. lra.
  - apply (py_int_lt_bound _ (2 ^ 31)); [lia |].
    change (2 ^ 31)%Z with 2147483648%Z. lra.
Qed.



(** ** RGB565 packing *)

(** A value below [2^k] has no bit in common with anything shifted left
    by [k]. *)
Lemma land_shiftl_small (a b k : Z) :
  (0 <= k)%Z -> (0 <= b < 2 ^ k)%Z -> Z.land (Z.shiftl a k) b = 0%Z.
Proof.
  intros Hk Hb. apply Z.bits_inj'. intros n Hn.
  rewrite Z.land_spec, Z.bits_0.
  destruct (Z.lt_ge_cases n k) as [Hlt | Hge].
  - rewrite Z.shiftl_spec_low by exact Hlt. reflexivity.
  - assert (Hb' : Z.testbit b n = false).
    { apply Z.testbit_false; [exact Hn |].
      rewrite Z.div_small; [reflexivity |].
      split; [lia |].
      apply Z.lt_le_trans with (2 ^ k)%Z; [lia |].
      apply Z.pow_le_mono_r; lia. }
    rewrite Hb'. apply andb_false_r.
Qed.

Lemma lor_shiftl_small (a b k : Z) :
  (0 <= k)%Z -> (0 <= b < 2 ^ k)%Z ->
  Z.lor (Z.shiftl a k) b = (a * 2 ^ k + b)%Z.
Proof.
  intros Hk Hb.
  pose proof (Z.add_lor_land (Z.shiftl a k) b) as H.
  rewrite land_shiftl_small in H by assumption.
  rewrite Z.shiftl_mul_pow2 in * by exact Hk. lia.
Qed.

(** The three color fields packed side by side. *)
Lemma rgb565_fields (ri gi bi : Z) :
  (0 <= ri < 32)%Z -> (0 <= gi < 64)%Z -> (0 <= bi < 32)%Z ->
  Z.lor (Z.lor (Z.shiftl ri 11) (Z.shiftl gi 5)) bi
  = (ri * 2048 + gi * 32 + bi)%Z.
Proof.
  intros Hr Hg Hb.
  assert (Hg5 : Z.shiftl gi 5 = (gi * 32)%Z) by (rewrite Z.shiftl_mul_pow2; lia).
  rewrite (lor_shiftl_small ri (Z.shiftl gi 5) 11) by lia.
  rewrite Hg5.
  replace (ri * 2 ^ 11 + gi * 32)%Z with (Z.shiftl (ri * 64 + gi) 5)
    by (rewrite Z.shiftl_mul_pow2; lia).
  rewrite lor_shiftl_small by lia. lia.
Qed.


(** A clamped, non-negative channel scaled by [k] truncates into [0..k]. *)
Lemma channel_range (c : R) (k : Z) :
  0 <= c -> (0 < k)%Z -> (0 <= py_int (Rmin c 1.0 * IZR k) <= k)%Z.
Proof.
  intros Hc Hk.
  assert (Hk' : 0 < IZR k) by (apply IZR_lt; exact Hk).
  assert (Hm : 0 <= Rmin c 1.0 <= 1).
  { split; [apply Rmin_glb; lra | replace 1 with 1.0 by lra; apply Rmin_r]. }
  split.
  - apply py_int_nonneg. apply Rmult_le_pos; lra.
  - apply py_int_le_bound. nra.
Qed.

(** On non-negative numbers truncation toward zero is the floor. *)
Lemma py_int_floor (x : R) : 0 <= x -> py_int x = Zfloor x.
Proof. intros Hx. unfold py_int. destruct (Rle_dec 0 x); [reflexivity | lra]. Qed.

Lemma py_int_channel (c : R) (k n : Z) :
  Rmin c 1.0 * IZR k = IZR n -> py_int (Rmin c 1.0 * IZR k) = n.
Proof. intros H. rewrite H. apply py_int_IZR. Qed.

Lemma pack_rgb565_white : pack_rgb565 1.0 1.0 1.0 = 0xFFFF%Z.
Proof.
  unfold pack_rgb565. cbv zeta.
  rewrite (py_int_channel 1.0 31 31), (py_int_channel 1.0 63 63);
    [reflexivity | |]; rewrite Rmin_left; lra.
Qed.




Lemma pack_rgb565_nonneg_fields (r g b : R) :
  0 <= r -> 0 <= g -> 0 <= b ->
  let ri := py_int (Rmin r 1.0 * 31) in
  let gi := py_int (Rmin g 1.0 * 63) in
  let bi := py_int (Rmin b 1.0 * 31) in
  (0 <= ri <= 31)%Z /\ (0 <= gi <= 63)%Z /\ (0 <= bi <= 31)%Z /\
  pack_rgb565 r g b = (ri * 2048 + gi * 32 + bi)%Z.
Proof.
  intros Hr Hg Hb ri gi bi.
  assert (Hri : (0 <= ri <= 31)%Z) by (apply (channel_range r 31); [exact Hr | lia]).
  assert (Hgi : (0 <= gi <= 63)%Z) by (apply (channel_range g 63); [exact Hg | lia]).
  assert (Hbi : (0 <= bi <= 31)%Z) by (apply (channel_range b 31); [exact Hb | lia]).
  repeat split; try lia.
  unfold pack_rgb565. cbv zeta. fold ri gi bi. apply rgb565_fields; lia.
Qed.




(** C10. For all non-negative [r], [g], [b], [pack_rgb565 r g b] (in both
    scripts) lies in [0, 0xFFFF]; the red and blue fields are in [0..31]
    and the green field in [0..63]; and the shifted fields have no bit in
    common, so that the bitwise OR is their sum. *)
Theorem pack_rgb565_range (r g b : R) :
  0 <= r -> 0 <= g -> 0 <= b ->
  let ri := py_int (Rmin r 1.0 * 31) in
  let gi := py_int (Rmin g 1.0 * 63) in
  let bi := py_int (Rmin b 1.0 * 31) in
  (0 <= pack_rgb565 r g b <= 0xFFFF)%Z /\
  TestUart.pack_rgb565 r g b = pack_rgb565 r g b /\
  (0 <= ri <= 31)%Z /\ (0 <= gi <= 63)%Z /\ (0 <= bi <= 31)%Z /\
  Z.land (Z.shiftl ri 11) (Z.shiftl gi 5) = 0%Z /\
  Z.land (Z.shiftl ri 11) bi = 0%Z /\
  Z.land (Z.shiftl gi 5) bi = 0%Z /\
  pack_rgb565 r g b = (Z.shiftl ri 11 + Z.shiftl gi 5 + bi)%Z.
Proof.
  intros Hr Hg Hb ri gi bi.
  destruct (pack_rgb565_nonneg_fields r g b Hr Hg Hb) as (Hri & Hgi & Hbi & Hp).
  fold ri gi bi in Hri, Hgi, Hbi, Hp.
  assert (Hg5 : Z.shiftl gi 5 = (gi * 32)%Z) by (rewrite Z.shiftl_mul_pow2; lia).
  assert (Hr11 : Z.shiftl ri 11 = (ri * 2048)%Z) by (rewrite Z.shiftl_mul_pow2; lia).
  split; [rewrite Hp; lia |].
  split; [reflexivity |].
  repeat (split; [lia |]).
  split; [apply land_shiftl_small; lia |].
  split; [apply land_shiftl_small; lia |].
  split; [apply land_shiftl_small; lia |].
  rewrite Hp. lia.
Qed.

Lemma pack_rgb565_range_witness :
  (0 <= pack_rgb565 0.1 0.1 0.25 <= 0xFFFF)%Z.
Proof.
  apply (pack_rgb565_range 0.1 0.1 0.25); lra.
Defined.

(** ** Matrices *)

Lemma length4_inv (row : list R) :
  length row = 4%nat -> exists a b c d : R, row = [a; b; c; d].
Proof.
  intros H.
  destruct row as [| a [| b [| c [| d [| ? ?]]]]]; try discriminate H.
  exists a, b, c, d. reflexivity.
Qed.

Lemma is_mat4_inv (m : mat) :
  is_mat4 m ->
  exists m00 m01 m02 m03 m10 m11 m12 m13 m20 m21 m22 m23 m30 m31 m32 m33 : R,
    m = [ [m00; m01; m02; m03]; [m10; m11; m12; m13];
          [m20; m21; m22; m23]; [m30; m31; m32; m33] ].
Proof.
  intros [Hlen Hrows].
  destruct m as [| r0 [| r1 [| r2 [| r3 [| ? ?]]]]]; try discriminate Hlen.
  inversion Hrows as [| ? ? H0 Hrows1]; subst.
  inversion Hrows1 as [| ? ? H1 Hrows2]; subst.
  inversion Hrows2 as [| ? ? H2 Hrows3]; subst.
  inversion Hrows3 as [| ? ? H3 _]; subst.
  destruct (length4_inv r0 H0) as (m00 & m01 & m02 & m03 & ->).
  destruct (length4_inv r1 H1) as (m10 & m11 & m12 & m13 & ->).
  destruct (length4_inv r2 H2) as (m20 & m21 & m22 & m23 & ->).
  destruct (length4_inv r3 H3) as (m30 & m31 & m32 & m33 & ->).
  repeat eexists.
Qed.


(** The product of two 4x4 matrices given entry by entry: entry [(i, j)]
    is the sum over [k] of [a i k * b k j], accumulated from [0] in the
    order [k = 0, 1, 2, 3]. *)
Lemma mat4_multiply_entries
    (a00 a01 a02 a03 a10 a11 a12 a13 a20 a21 a22 a23 a30 a31 a32 a33
     b00 b01 b02 b03 b10 b11 b12 b13 b20 b21 b22 b23 b30 b31 b32 b33 : R) :
  mat4_multiply
    [ [a00; a01; a02; a03]; [a10; a11; a12; a13];
      [a20; a21; a22; a23]; [a30; a31; a32; a33] ]
    [ [b00; b01; b02; b03]; [b10; b11; b12; b13];
      [b20; b21; b22; b23]; [b30; b31; b32; b33] ]
  = Some
    [ [ 0 + a00 * b00 + a01 * b10 + a02 * b20 + a03 * b30;
        0 + a00 * b01 + a01 * b11 + a02 * b21 + a03 * b31;
        0 + a00 * b02 + a01 * b12 + a02 * b22 + a03 * b32;
        0 + a00 * b03 + a01 * b13 + a02 * b23 + a03 * b33 ];
      [ 0 + a10 * b00 + a11 * b10 + a12 * b20 + a13 * b30;
        0 + a10 * b01 + a11 * b11 + a12 * b21 + a13 * b31;
        0 + a10 * b02 + a11 * b12 + a12 * b22 + a13 * b32;
        0 + a10 * b03 + a11 * b13 + a12 * b23 + a13 * b33 ];
      [ 0 + a20 * b00 + a21 * b10 + a22 * b20 + a23 * b30;
        0 + a20 * b01 + a21 * b11 + a22 * b21 + a23 * b31;
        0 + a20 * b02 + a21 * b12 + a22 * b22 + a23 * b32;
        0 + a20 * b03 + a21 * b13 + a22 * b23 + a23 * b33 ];
      [ 0 + a30 * b00 + a31 * b10 + a32 * b20 + a33 * b30;
        0 + a30 * b01 + a31 * b11 + a32 * b21 + a33 * b31;
        0 + a30 * b02 + a31 * b12 + a32 * b22 + a33 * b32;
        0 + a30 * b03 + a31 * b13 + a32 * b23 + a33 * b33 ] ].
Proof. reflexivity. Qed.

Lemma mat4_multiply_product (a b : mat) :
  is_mat4 a -> is_mat4 b ->
  exists c : mat,
    mat4_multiply a b = Some c /\ is_mat4 c /\
    forall i j : nat, (i < 4)%nat -> (j < 4)%nat ->
      mat_entry c i j = row_by_column a b i j.
Proof.
  intros Ha Hb.
  destruct (is_mat4_inv a Ha)
    as (a00 & a01 & a02 & a03 & a10 & a11 & a12 & a13 &
        a20 & a21 & a22 & a23 & a30 & a31 & a32 & a33 & ->).
  destruct (is_mat4_inv b Hb)
    as (b00 & b01 & b02 & b03 & b10 & b11 & b12 & b13 &
        b20 & b21 & b22 & b23 & b30 & b31 & b32 & b33 & ->).
  rewrite mat4_multiply_entries. eexists. split; [reflexivity |].
  split; [split; [reflexivity | repeat constructor] |].
  intros i j Hi Hj.
  destruct i as [| [| [| [| i]]]]; try lia;
    destruct j as [| [| [| [| j]]]]; try lia;
    unfold row_by_column, mat_entry; cbn [nth]; ring.
Qed.

Lemma mat4_multiply_identity_l (m : mat) :
  is_mat4 m -> mat4_multiply mat4_identity m = Some m.
Proof.
  intros Hm.
  destruct (is_mat4_inv m Hm)
    as (m00 & m01 & m02 & m03 & m10 & m11 & m12 & m13 &
        m20 & m21 & m22 & m23 & m30 & m31 & m32 & m33 & ->).
  unfold mat4_identity. rewrite mat4_multiply_entries.
  repeat f_equal; ring.
Qed.

Lemma mat4_multiply_identity_r (m : mat) :
  is_mat4 m -> mat4_multiply m mat4_identity = Some m.
Proof.
  intros Hm.
  destruct (is_mat4_inv m Hm)
    as (m00 & m01 & m02 & m03 & m10 & m11 & m12 & m13 &
        m20 & m21 & m22 & m23 & m30 & m31 & m32 & m33 & ->).
  unfold mat4_identity. rewrite mat4_multiply_entries.
  repeat f_equal; ring.
Qed.

(** C7. For every 4x4 matrix [M], [mat4_multiply (mat4_identity) M] and
    [mat4_multiply M (mat4_identity)] both return [M]; and
    [mat4_multiply] is the row-by-column product: on 4x4 matrices it
    returns the 4x4 matrix whose entry [(i, j)] is the sum over [k] of
    [a[i][k] * b[k][j]]. *)
Theorem mat4_multiply_identity (M : mat) :
  is_mat4 M ->
  mat4_multiply mat4_identity M = Some M /\
  mat4_multiply M mat4_identity = Some M /\
  (forall B : mat, is_mat4 B ->
     exists C : mat,
       mat4_multiply M B = Some C /\ is_mat4 C /\
       forall i j : nat, (i < 4)%nat -> (j < 4)%nat ->
         mat_entry C i j = row_by_column M B i j).
Proof.
  intros HM.
  split; [apply mat4_multiply_identity_l; exact HM |].
  split; [apply mat4_multiply_identity_r; exact HM |].
  intros B HB. apply mat4_multiply_product; assumption.
Qed.

Lemma mat4_multiply_identity_witness :
  let M := [ [1; 2; 3; 4]; [5; 6; 7; 8]; [9; 10; 11; 12]; [13; 14; 15; 16] ] in
  mat4_multiply mat4_identity M = Some M /\
  mat4_multiply M mat4_identity = Some M.
Proof.
  intros M.
  assert (HM : is_mat4 M) by (split; [reflexivity | repeat constructor]).
  destruct (mat4_multiply_identity M HM) as (Hl & Hr & _).
  split; assumption.
Defined.

(** ** Vectors *)

Lemma sum_squares_nonneg (x y z : R) : 0 <= x * x + y * y + z * z.
Proof. nra. Qed.

Lemma vec3_length_norm3 (x y z : R) :
  vec3_length [x; y; z] = Some (norm3 x y z).
Proof.
  unfold vec3_length, vec3_dot, math_sqrt. cbn.
  destruct (Rlt_dec (x * x + y * y + z * z) 0) as [H | H].
  - pose proof (sum_squares_nonneg x y z). lra.
  - reflexivity.
Qed.

Lemma norm3_square (x y z : R) :
  norm3 x y z * norm3 x y z = x * x + y * y + z * z.
Proof. apply sqrt_sqrt. apply sum_squares_nonneg. Qed.

Lemma norm3_eq (x y z n : R) :
  0 <= n -> x * x + y * y + z * z = n * n -> norm3 x y z = n.
Proof. intros Hn H. unfold norm3. rewrite H. apply sqrt_square. exact Hn. Qed.


Lemma vec3_normalize_long (x y z : R) :
  norm3 x y z > 0.0001 ->
  let s := 1 / norm3 x y z in
  vec3_normalize [x; y; z] = Some [x * s; y * s; z * s].
Proof.
  intros Hn s. unfold vec3_normalize.
  rewrite vec3_length_norm3. cbn.
  destruct (Rgt_dec (norm3 x y z) 0.0001) as [H | H]; [| contradiction].
  unfold py_div.
  destruct (Req_dec_T (norm3 x y z) 0) as [H0 | H0]; [lra |].
  cbn. unfold s. replace 1.0 with 1 by lra. reflexivity.
Qed.

Lemma vec3_normalize_short (x y z : R) :
  norm3 x y z <= 0.0001 ->
  vec3_normalize [x; y; z] = Some [x; y; z].
Proof.
  intros Hn. unfold vec3_normalize.
  rewrite vec3_length_norm3. cbn.
  destruct (Rgt_dec (norm3 x y z) 0.0001) as [H | H]; [lra | reflexivity].
Qed.



(** ** The view matrix *)

(** [mat4_look_at] on three 3-vectors, once the two normalizations are
    known: the rows are [r], [u], [-f] with the translations
    [-r.eye], [-u.eye], [f.eye], over the last row of the identity. *)
Lemma mat4_look_at_rows (ex ey ez tx ty tz ux uy uz f0 f1 f2 r0 r1 r2 : R) :
  vec3_normalize [tx - ex; ty - ey; tz - ez] = Some [f0; f1; f2] ->
  vec3_normalize [f1 * uz - f2 * uy; f2 * ux - f0 * uz; f0 * uy - f1 * ux]
    = Some [r0; r1; r2] ->
  let u0 := r1 * f2 - r2 * f1 in
  let u1 := r2 * f0 - r0 * f2 in
  let u2 := r0 * f1 - r1 * f0 in
  mat4_look_at [ex; ey; ez] [tx; ty; tz] [ux; uy; uz]
  = Some [ [r0; r1; r2; - (r0 * ex + r1 * ey + r2 * ez)];
           [u0; u1; u2; - (u0 * ex + u1 * ey + u2 * ez)];
           [- f0; - f1; - f2; f0 * ex + f1 * ey + f2 * ez];
           [0; 0; 0; 1] ].
Proof.
  intros Hf Hr u0 u1 u2. unfold mat4_look_at.
  change (vec3_sub [tx; ty; tz] [ex; ey; ez])
    with (Some [tx - ex; ty - ey; tz - ez]).
  cbn [mbind option_bind]. rewrite Hf. cbn [mbind option_bind].
  change (vec3_cross [f0; f1; f2] [ux; uy; uz])
    with (Some [f1 * uz - f2 * uy; f2 * ux - f0 * uz; f0 * uy - f1 * ux]).
  cbn [mbind option_bind]. rewrite Hr. reflexivity.
Qed.



(** ** Vertex transformation *)

Lemma mat4_transform_clip (mvp : mat) (x y z : R) :
  is_mat4 mvp ->
  mat4_transform mvp [x; y; z; 1.0]
  = Some [ clip_coord mvp x y z 0; clip_coord mvp x y z 1;
           clip_coord mvp x y z 2; clip_coord mvp x y z 3 ].
Proof.
  intros Hm.
  destruct (is_mat4_inv mvp Hm)
    as (m00 & m01 & m02 & m03 & m10 & m11 & m12 & m13 &
        m20 & m21 & m22 & m23 & m30 & m31 & m32 & m33 & ->).
  unfold clip_coord, mat_entry. cbn [nth].
  replace 1 with 1.0 by lra. reflexivity.
Qed.

(** The value of [transform_vertex] wherever the clip-space [w] is not
    zero. *)
Lemma transform_vertex_value (x y z u v r g b : R) (mvp : mat) :
  is_mat4 mvp ->
  let cx := clip_coord mvp x y z 0 in
  let cy := clip_coord mvp x y z 1 in
  let cz := clip_coord mvp x y z 2 in
  let cw := clip_coord mvp x y z 3 in
  cw <> 0 ->
  transform_vertex [x; y; z] [u; v] [r; g; b] mvp
  = Some {| vx := (cx * (1.0 / cw) + 1.0) * 0.5 * IZR SCREEN_WIDTH;
            vy := (1.0 - cy * (1.0 / cw)) * 0.5 * IZR SCREEN_HEIGHT;
            vz := (cz * (1.0 / cw) + 1.0) * 0.5;
            vw := 1.0 / cw * 16.0;
            vu := u; vv := v; vr := r; vg := g; vb := b; va := 1.0 |}.
Proof.
  intros Hm cx cy cz cw Hw. unfold transform_vertex.
  cbn [lookup list_lookup mbind option_bind].
  rewrite (mat4_transform_clip mvp x y z Hm).
  cbn [lookup list_lookup mbind option_bind].
  fold cx cy cz cw. unfold py_div.
  destruct (Req_dec_T cw 0) as [H0 | H0]; [contradiction |].
  reflexivity.
Qed.

(** Peel the successful binds off a hypothesis [m >>= f = Some _]. *)
Ltac invert_binds H :=
  repeat match type of H with
         | (mbind _ ?m) = Some _ =>
             let x := fresh "x" in
             let E := fresh "E" in
             destruct m as [x |] eqn:E; cbn [mbind option_bind] in H;
             [| discriminate H]
         end.







(** ** Bytes on the wire *)

Lemma Z_of_byte_of_Z (z : Z) : Z_of_byte (byte_of_Z z) = (z mod 256)%Z.
Proof.
  unfold Z_of_byte, byte_of_Z.
  assert (Hm : (0 <= z mod 256 < 256)%Z) by (apply Z.mod_pos_bound; lia).
  destruct (Byte.of_N (Z.to_N (z mod 256))) as [b |] eqn:E.
  - apply Byte.to_of_N in E. rewrite E. apply Z2N.id. lia.
  - apply Byte.of_N_None_iff in E. lia.
Qed.

Lemma length_le_bytes (width : nat) (n : Z) : length (le_bytes width n) = width.
Proof.
  revert n. induction width as [| w IH]; intros n; [reflexivity |].
  cbn [le_bytes length]. rewrite IH. reflexivity.
Qed.

(** Little-endian decoding undoes little-endian encoding. *)
Lemma le_value_le_bytes (width : nat) (n : Z) :
  (0 <= n < 2 ^ (8 * Z.of_nat width))%Z -> le_value (le_bytes width n) = n.
Proof.
  revert n. induction width as [| w IH]; intros n Hn.
  - cbn in *. lia.
  - cbn [le_bytes le_value]. rewrite Z_of_byte_of_Z.
    rewrite Z.shiftr_div_pow2 by lia. change (2 ^ 8)%Z with 256%Z.
    rewrite IH.
    + pose proof (Z.div_mod n 256). lia.
    + replace (8 * Z.of_nat (S w))%Z with (8 + 8 * Z.of_nat w)%Z in Hn by lia.
      rewrite Z.pow_add_r in Hn by lia. change (2 ^ 8)%Z with 256%Z in Hn.
      split; [apply Z.div_pos; lia |].
      apply Z.div_lt_upper_bound; lia.
Qed.

Lemma pack_uint_float_to_fp (f : R) :
  pack_uint 4 (float_to_fp f) = Some (le_bytes 4 (float_to_fp f)).
Proof.
  unfold pack_uint. pose proof (float_to_fp_range f) as [H0 H1].
  change (2 ^ (8 * Z.of_nat 4))%Z with (2 ^ 32)%Z.
  destruct (Z.leb_spec 0 (float_to_fp f)); [| lia].
  destruct (Z.ltb_spec (float_to_fp f) (2 ^ 32)); [| lia].
  reflexivity.
Qed.

(** [send_vertex] never fails: it appends the vertex record. *)
Lemma send_vertex_written (ser : Serial) (v : DeviceVertex) :
  send_vertex ser v = Some (ser_write ser (vertex_record v)).
Proof.
  unfold send_vertex, struct_pack.
  cbn [length Nat.eqb pack_uints].
  rewrite !pack_uint_float_to_fp. reflexivity.
Qed.

Lemma vertex_record_length (v : DeviceVertex) : length (vertex_record v) = 40%nat.
Proof. reflexivity. Qed.


Lemma send_triangle_written (ser : Serial) (v0 v1 v2 : DeviceVertex) :
  send_triangle ser v0 v1 v2
  = Some {| written :=
              written ser ++ [Byte.x03] ++ vertex_record v0 ++
              vertex_record v1 ++ vertex_record v2 |}.
Proof.
  unfold send_triangle.
  change (py_bytes [CMD_TRIANGLE]) with (Some [Byte.x03]).
  cbn [mbind option_bind].
  repeat (rewrite send_vertex_written; cbn [mbind option_bind]).
  unfold ser_write. cbn [written]. f_equal. f_equal.
  rewrite <- !app_assoc. reflexivity.
Qed.



(** ** The render loop *)

Lemma py_range_triangles :
  py_range 0 36 3 = [0; 3; 6; 9; 12; 15; 18; 21; 24; 27; 30; 33]%nat.
Proof. reflexivity. Qed.





(** A frame's twelve triangles put [12 * 121 = 1452] bytes on the wire. *)
Lemma render_cube_length (ser ser' : Serial) (mvp : mat) :
  render_cube ser mvp = Some ser' ->
  length (written ser') = (length (written ser) + 1452)%nat.
Proof.
  unfold render_cube.
  assert (Hgen : forall (xs : list nat) (s s' : Serial),
             for_each xs
               (fun ser i =>
                  match cube_triangle mvp i with
                  | Some (v0, v1, v2) => send_triangle ser v0 v1 v2
                  | None => None
                  end) s = Some s' ->
             length (written s')
             = (length (written s) + 121 * length xs)%nat).
  { induction xs as [| x xs IH]; intros s s' H; cbn [for_each] in H.
    - injection H as <-. cbn [length]. lia.
    - destruct (cube_triangle mvp x) as [[[v0 v1] v2] |]; [| discriminate H].
      rewrite send_triangle_written in H.
      apply IH in H. rewrite H. cbn [written length].
      rewrite !length_app, !vertex_record_length. cbn [length]. lia. }
  intros H. apply Hgen in H. rewrite H, py_range_triangles. reflexivity.
Qed.

(** * Further properties of the code *)

(** ** More on the fixed-point codec *)

Lemma py_int_opp (x : R) : py_int (- x) = (- py_int x)%Z.
Proof.
  apply py_int_eq. destruct (py_int_truncates x) as [H1 H2].
  split; intros H; rewrite opp_IZR.
  - destruct (Rle_dec 0 x) as [H0 | H0].
    + specialize (H1 H0). assert (x = 0) by lra. subst x.
      assert (IZR (py_int 0) = 0).
      { rewrite py_int_floor by lra.
        change 0 with (IZR 0). rewrite ZfloorZ. reflexivity. }
      lra.
    + assert (Hneg : x < 0) by lra. specialize (H2 Hneg). lra.
  - assert (Hpos : 0 <= x) by lra. specialize (H1 Hpos). lra.
Qed.

Lemma py_int_mono (x y : R) : x <= y -> (py_int x <= py_int y)%Z.
Proof.
  intros Hxy. destruct (Rle_dec 0 x) as [Hx | Hx].
  - apply py_int_ge_bound. destruct (py_int_truncates x) as [H1 _].
    specialize (H1 Hx). lra.
  - destruct (Rle_dec 0 y) as [Hy | Hy].
    + apply Z.le_trans with 0%Z.
      * apply py_int_le_bound. lra.
      * apply py_int_nonneg. exact Hy.
    + unfold py_int.
      destruct (Rle_dec 0 x); [lra |]. destruct (Rle_dec 0 y); [lra |].
      apply Zceil_le. exact Hxy.
Qed.

Lemma fp_signed_pattern (p : Z) :
  (0 <= p < 2 ^ 32)%Z ->
  (- 2 ^ 31 <= fp_signed p < 2 ^ 31)%Z /\ (fp_signed p mod 2 ^ 32 = p)%Z.
Proof.
  intros Hp. unfold fp_signed.
  destruct (Z.ltb_spec p (2 ^ 31)) as [H | H].
  - split; [lia | apply Z.mod_small; lia].
  - split; [lia |].
    rewrite <- (Z.mod_add (p - 2 ^ 32) 1 (2 ^ 32)) by lia.
    replace (p - 2 ^ 32 + 1 * 2 ^ 32)%Z with p by lia.
    apply Z.mod_small. lia.
Qed.

Lemma scaled_grid (k : Z) : IZR k / 65536 * 65536 = IZR k.
Proof. field. Qed.

(** X1. The codec is exact on the Q15.16 grid: a multiple [k / 2^16] of
    the resolution with [-2^31 <= k < 2^31] is encoded as the two's
    complement pattern of [k] and decoded back to itself. *)
Theorem float_to_fp_grid_exact (k : Z) :
  (- 2 ^ 31 <= k < 2 ^ 31)%Z ->
  float_to_fp (IZR k / 65536) = (k mod 2 ^ 32)%Z /\
  fp_signed (float_to_fp (IZR k / 65536)) = k /\
  fp_to_float (float_to_fp (IZR k / 65536)) = IZR k / 65536.
Proof.
  intros Hk.
  assert (He : float_to_fp (IZR k / 65536) = (k mod 2 ^ 32)%Z).
  { rewrite float_to_fp_mod, scaled_grid, py_int_IZR. reflexivity. }
  split; [exact He |].
  unfold fp_to_float. rewrite He, fp_signed_mod by exact Hk.
  split; reflexivity.
Qed.

Lemma float_to_fp_grid_exact_witness :
  fp_to_float (float_to_fp (IZR (-98304) / 65536)) = IZR (-98304) / 65536.
Proof.
  apply (float_to_fp_grid_exact (-98304)). lia.
Defined.

(** X2. Every 32-bit pattern is the encoding of its own decoding:
    [float_to_fp (fp_to_float p) = p] for [0 <= p < 2^32]. *)
Theorem float_to_fp_of_decoded (p : Z) :
  (0 <= p < 2 ^ 32)%Z -> float_to_fp (fp_to_float p) = p.
Proof.
  intros Hp. unfold fp_to_float.
  rewrite float_to_fp_mod, scaled_grid, py_int_IZR.
  apply fp_signed_pattern. exact Hp.
Qed.

Lemma float_to_fp_of_decoded_witness :
  float_to_fp (fp_to_float 0xFFFF8000) = 0xFFFF8000%Z.
Proof.
  apply (float_to_fp_of_decoded 0xFFFF8000). lia.
Defined.

(** X3. Encoding is odd: because [int()] truncates toward zero, the
    pattern of [-x] is the two's complement negation of the pattern of
    [x], for every [x]. *)
Theorem float_to_fp_opp (x : R) :
  float_to_fp (- x) = ((- float_to_fp x) mod 2 ^ 32)%Z.
Proof.
  rewrite !float_to_fp_mod.
  replace (- x * 65536) with (- (x * 65536)) by lra.
  rewrite py_int_opp.
  rewrite <- (Z.sub_0_l (py_int (x * 65536) mod 2 ^ 32)).
  rewrite Zminus_mod_idemp_r. reflexivity.
Qed.

(** X4. Inside the Q15.16 range the decoded value lies between zero and
    the encoded number: encoding never increases the magnitude and never
    changes the sign. *)
Theorem float_to_fp_toward_zero (x : R) :
  -32768 <= x < 32768 ->
  let d := fp_to_float (float_to_fp x) in
  (0 <= x -> 0 <= d <= x) /\ (x <= 0 -> x <= d <= 0).
Proof.
  intros Hx d. unfold d, fp_to_float.
  rewrite float_to_fp_decode by exact Hx.
  destruct (py_int_truncates (x * 65536)) as [H1 H2].
  split; intros Hs.
  - assert (H0 : 0 <= x * 65536) by lra. specialize (H1 H0).
    pose proof (py_int_nonneg _ H0) as Hn. apply IZR_le in Hn. lra.
  - destruct (Req_dec_T x 0) as [-> | Hne].
    + replace (0 * 65536) with (IZR 0) by lra. rewrite py_int_IZR. lra.
    + assert (H0 : x * 65536 < 0) by lra. specialize (H2 H0).
      assert (Hn : (py_int (x * 65536) <= 0)%Z) by (apply py_int_le_bound; lra).
      apply IZR_le in Hn. lra.
Qed.

Lemma float_to_fp_toward_zero_witness :
  -0.3 <= fp_to_float (float_to_fp (-0.3)) <= 0.
Proof.
  apply (float_to_fp_toward_zero (-0.3)); lra.
Defined.

(** X5. Encoding preserves order inside the Q15.16 range: if [x <= y]
    the pattern of [x], read as a signed number, is at most that of [y]. *)
Theorem float_to_fp_monotone (x y : R) :
  -32768 <= x -> x <= y -> y < 32768 ->
  (fp_signed (float_to_fp x) <= fp_signed (float_to_fp y))%Z /\
  fp_to_float (float_to_fp x) <= fp_to_float (float_to_fp y).
Proof.
  intros Hx Hxy Hy.
  assert (Hz : (fp_signed (float_to_fp x) <= fp_signed (float_to_fp y))%Z).
  { rewrite !float_to_fp_decode by lra. apply py_int_mono. lra. }
  split; [exact Hz |].
  unfold fp_to_float. apply IZR_le in Hz. lra.
Qed.

Lemma float_to_fp_monotone_witness :
  fp_to_float (float_to_fp 0.25) <= fp_to_float (float_to_fp 0.75).
Proof.
  apply (float_to_fp_monotone 0.25 0.75); lra.
Defined.

(** X6. There is no saturation: a number in [32768, 65536), just above
    the Q15.16 range, wraps to a negative value, [65536] below the number
    truncated to the grid. *)
Theorem float_to_fp_wraps (x : R) :
  32768 <= x < 65536 ->
  let d := fp_to_float (float_to_fp x) in
  d = IZR (py_int (x * 65536)) / 65536 - 65536 /\
  d < 0 /\
  Rabs (d + 65536 - x) < / 2 ^ 16.
Proof.
  intros Hx d.
  assert (Hn : (2 ^ 31 <= py_int (x * 65536) < 2 ^ 32)%Z).
  { split.
    - apply py_int_ge_bound. change (2 ^ 31)%Z with 2147483648%Z. lra.
    - apply py_int_lt_bound; [lia |]. change (2 ^ 32)%Z with 4294967296%Z. lra. }
  assert (Hd : d = IZR (py_int (x * 65536)) / 65536 - 65536).
  { unfold d, fp_to_float. rewrite float_to_fp_mod.
    rewrite Z.mod_small by lia. unfold fp_signed.
    destruct (Z.ltb_spec (py_int (x * 65536)) (2 ^ 31)); [lia |].
    rewrite minus_IZR. change (2 ^ 32)%Z with 4294967296%Z. field. }
  split; [exact Hd |].
  pose proof (py_int_error (x * 65536)) as He. apply Rabs_def2 in He.
  destruct Hn as [_ Hn]. apply IZR_lt in Hn.
  change (2 ^ 32)%Z with 4294967296%Z in Hn.
  replace (/ 2 ^ 16) with (/ 65536) by (f_equal; lra).
  rewrite Hd. split; [lra |]. apply Rabs_def1; lra.
Qed.

Lemma float_to_fp_wraps_witness :
  fp_to_float (float_to_fp 40000) < 0.
Proof.
  apply (float_to_fp_wraps 40000). lra.
Defined.

(** ** More on RGB565 and the clear command *)

Lemma Rmin_one (c : R) : Rmin c 1.0 = Rmin c 1.
Proof. f_equal. lra. Qed.

(** X7. Channels saturate at [1.0]: packing [(r, g, b)] is packing the
    channels clamped to [1], and every color with all channels at or
    above [1] packs to white, [0xFFFF]. *)
Theorem pack_rgb565_saturates (r g b : R) :
  pack_rgb565 r g b = pack_rgb565 (Rmin r 1) (Rmin g 1) (Rmin b 1) /\
  (1 <= r -> 1 <= g -> 1 <= b -> pack_rgb565 r g b = 0xFFFF%Z).
Proof.
  assert (Hidem : forall c, Rmin (Rmin c 1) 1.0 = Rmin c 1.0).
  { intros c. rewrite !Rmin_one. apply Rmin_left. apply Rmin_r. }
  split.
  - unfold pack_rgb565. cbv zeta. rewrite !Hidem. reflexivity.
  - intros Hr Hg Hb. rewrite <- pack_rgb565_white.
    unfold pack_rgb565. cbv zeta.
    assert (Hsat : forall c, 1 <= c -> Rmin c 1.0 = Rmin 1.0 1.0).
    { intros c Hc. rewrite (Rmin_right c) by lra.
      rewrite Rmin_left by lra. reflexivity. }
    rewrite (Hsat r Hr), (Hsat g Hg), (Hsat b Hb). reflexivity.
Qed.

Lemma pack_rgb565_saturates_witness : pack_rgb565 7 1.5 1 = 0xFFFF%Z.
Proof.
  apply (proj2 (pack_rgb565_saturates 7 1.5 1)); lra.
Defined.



(** A channel above minus one step still truncates into its field; a
    channel at or below minus one step truncates to a negative integer. *)
Lemma channel_range_trunc (c : R) (k : Z) :
  (0 < k)%Z -> - / IZR k < c -> (0 <= py_int (Rmin c 1.0 * IZR k) <= k)%Z.
Proof.
  intros Hk Hc.
  destruct (Rle_dec 0 c) as [H0 | H0]; [apply channel_range; assumption |].
  assert (Hk' : 0 < IZR k) by (apply IZR_lt; exact Hk).
  rewrite Rmin_left by lra.
  assert (Hlo : -1 < c * IZR k).
  { replace (-1) with (- / IZR k * IZR k) by (field; lra).
    apply Rmult_lt_compat_r; assumption. }
  assert (Hhi : c * IZR k < 0) by nra.
  assert (Hz : py_int (c * IZR k) = 0%Z).
  { apply py_int_eq. split; intros H; lra. }
  rewrite Hz. lia.
Qed.

Lemma channel_negative (c : R) (k : Z) :
  (0 < k)%Z -> c <= - / IZR k -> (py_int (Rmin c 1.0 * IZR k) < 0)%Z.
Proof.
  intros Hk Hc.
  assert (Hk' : 0 < IZR k) by (apply IZR_lt; exact Hk).
  assert (Hinv : 0 < / IZR k) by (apply Rinv_0_lt_compat; exact Hk').
  rewrite Rmin_left by lra.
  assert (Hle : c * IZR k <= -1).
  { replace (-1) with (- / IZR k * IZR k) by (field; lra).
    apply Rmult_le_compat_r; lra. }
  assert (H : (py_int (c * IZR k) <= -1)%Z) by (apply py_int_le_bound; lra).
  lia.
Qed.

Lemma send_clear_fb_in_range (ser : Serial) (color : Z) :
  (0 <= color < 2 ^ 16)%Z ->
  send_clear_fb ser color
  = Some {| written := written ser ++ Byte.x01 :: le_bytes 2 color |}.
Proof.
  intros Hc. unfold send_clear_fb, struct_pack.
  change (py_bytes [CMD_CLEAR_FB]) with (Some [Byte.x01]).
  cbn [mbind option_bind length Nat.eqb pack_uints]. unfold pack_uint.
  change (2 ^ (8 * Z.of_nat 2))%Z with (2 ^ 16)%Z.
  destruct (Z.leb_spec 0 color); [| lia].
  destruct (Z.ltb_spec color (2 ^ 16)); [| lia].
  cbn [andb mbind option_bind]. unfold ser_write. cbn [written].
  rewrite app_nil_r, <- app_assoc. reflexivity.
Qed.

Lemma send_clear_fb_out_of_range (ser : Serial) (color : Z) :
  ~ (0 <= color < 2 ^ 16)%Z -> send_clear_fb ser color = None.
Proof.
  intros Hc. unfold send_clear_fb, struct_pack.
  change (py_bytes [CMD_CLEAR_FB]) with (Some [Byte.x01]).
  cbn [mbind option_bind length Nat.eqb pack_uints]. unfold pack_uint.
  change (2 ^ (8 * Z.of_nat 2))%Z with (2 ^ 16)%Z.
  destruct (Z.leb_spec 0 color); destruct (Z.ltb_spec color (2 ^ 16));
    try lia; reflexivity.
Qed.

(** X9. [send_clear_fb] writes three bytes for a color in [0, 0xFFFF]:
    the opcode [0x01] and the color, low byte first; for any other color
    [struct.pack] raises and the command is not completed. *)
Theorem send_clear_fb_bytes (ser : Serial) (color : Z) :
  ((0 <= color < 2 ^ 16)%Z ->
     exists lo hi : byte,
       send_clear_fb ser color
         = Some {| written := written ser ++ [Byte.x01; lo; hi] |} /\
       Z_of_byte Byte.x01 = CMD_CLEAR_FB /\
       (Z_of_byte lo + 256 * Z_of_byte hi)%Z = color) /\
  (~ (0 <= color < 2 ^ 16)%Z -> send_clear_fb ser color = None).
Proof.
  split.
  - intros Hc. rewrite send_clear_fb_in_range by exact Hc.
    exists (byte_of_Z color), (byte_of_Z (Z.shiftr color 8)).
    split; [reflexivity |]. split; [reflexivity |].
    pose proof (le_value_le_bytes 2 color Hc) as H.
    cbn [le_bytes le_value] in H. lia.
  - apply send_clear_fb_out_of_range.
Qed.

Lemma send_clear_fb_bytes_witness :
  exists lo hi : byte,
    send_clear_fb {| written := [] |} 0x18C7
      = Some {| written := [] ++ [Byte.x01; lo; hi] |} /\
    Z_of_byte Byte.x01 = CMD_CLEAR_FB /\
    (Z_of_byte lo + 256 * Z_of_byte hi)%Z = 0x18C7%Z.
Proof.
  apply (proj1 (send_clear_fb_bytes {| written := [] |} 0x18C7)). lia.
Defined.

Lemma pack_rgb565_sign (r g b : R) :
  (- / 31 < r -> - / 63 < g -> - / 31 < b ->
     (0 <= pack_rgb565 r g b < 2 ^ 16)%Z) /\
  (r <= - / 31 \/ g <= - / 63 \/ b <= - / 31 -> (pack_rgb565 r g b < 0)%Z).
Proof.
  split.
  - intros Hr Hg Hb.
    pose proof (channel_range_trunc r 31 ltac:(lia) Hr) as Hri.
    pose proof (channel_range_trunc g 63 ltac:(lia) Hg) as Hgi.
    pose proof (channel_range_trunc b 31 ltac:(lia) Hb) as Hbi.
    unfold pack_rgb565. cbv zeta. rewrite rgb565_fields by lia. lia.
  - intros H. unfold pack_rgb565. cbv zeta.
    rewrite !Z.lor_neg, !Z.shiftl_neg.
    destruct H as [H | [H | H]].
    + left. left. apply (channel_negative r 31); [lia | exact H].
    + left. right. apply (channel_negative g 63); [lia | exact H].
    + right. apply (channel_negative b 31); [lia | exact H].
Qed.



(** ** The configuration command *)

Lemma py_bytes_two (a b : Z) :
  (0 <= a < 256)%Z ->
  py_bytes [a; b]
  = if ((0 <=? b) && (b <? 256))%Z then Some [byte_of_Z a; byte_of_Z b] else None.
Proof.
  intros Ha. cbn [py_bytes].
  destruct (Z.leb_spec 0 a); [| lia]. destruct (Z.ltb_spec a 256); [| lia].
  cbn [andb]. destruct ((0 <=? b) && (b <? 256))%Z; reflexivity.
Qed.

(** X11. [send_config] writes the two bytes [0x04, flags] when [flags] is
    in [0, 255] and raises otherwise.  The four flag constants are
    distinct bits: whatever subset is OR-ed together, the result is in
    [0, 15], is accepted, and each flag is read back from its own bit.
    [main] sends depth-test and depth-write, the byte [0x06]. *)
Theorem send_config_bytes (ser : Serial) :
  (forall flags : Z, (0 <= flags < 256)%Z ->
     send_config ser flags
       = Some {| written := written ser ++ [Byte.x04; byte_of_Z flags] |} /\
     Z_of_byte (byte_of_Z flags) = flags) /\
  (forall flags : Z, ~ (0 <= flags < 256)%Z -> send_config ser flags = None) /\
  (forall tex dtest dwrite blend : bool,
     let flags :=
       Z.lor (Z.lor (Z.lor (if tex then CFG_TEX_ENABLE else 0)
                           (if dtest then CFG_DEPTH_TEST else 0))
                    (if dwrite then CFG_DEPTH_WRITE else 0))
             (if blend then CFG_BLEND_ENABLE else 0) in
     (0 <= flags < 16)%Z /\
     Z.testbit flags 0 = tex /\ Z.testbit flags 1 = dtest /\
     Z.testbit flags 2 = dwrite /\ Z.testbit flags 3 = blend) /\
  send_config ser main_config
    = Some {| written := written ser ++ [Byte.x04; Byte.x06] |}.
Proof.
  assert (Hin : forall flags : Z, (0 <= flags < 256)%Z ->
            send_config ser flags
            = Some {| written := written ser ++ [Byte.x04; byte_of_Z flags] |}).
  { intros flags Hf. unfold send_config.
    rewrite py_bytes_two by (unfold CMD_SET_CONFIG; lia).
    destruct (Z.leb_spec 0 flags); [| lia].
    destruct (Z.ltb_spec flags 256); [| lia]. reflexivity. }
  split; [| split; [| split]].
  - intros flags Hf. split; [apply Hin; exact Hf |].
    rewrite Z_of_byte_of_Z. apply Z.mod_small. exact Hf.
  - intros flags Hf. unfold send_config.
    rewrite py_bytes_two by (unfold CMD_SET_CONFIG; lia).
    destruct (Z.leb_spec 0 flags); destruct (Z.ltb_spec flags 256);
      try lia; reflexivity.
  - intros [] [] [] []; cbv; repeat split; congruence.
  - rewrite Hin by (cbv; split; congruence). reflexivity.
Qed.

Lemma send_config_bytes_witness :
  send_config {| written := [] |} 0x0F
  = Some {| written := [] ++ [Byte.x04; byte_of_Z 0x0F] |}.
Proof.
  apply (proj1 (send_config_bytes {| written := [] |}) 0x0F%Z). lia.
Defined.

(** ** More on vectors *)








(** ** More on matrices *)

(** A loop that completes has run its body successfully on every item. *)
Lemma for_each_body_defined {S : Type} (xs : list nat)
    (body : S -> nat -> option S) (s s' : S) :
  for_each xs body s = Some s' ->
  forall x : nat, In x xs -> exists s1 s2 : S, body s1 x = Some s2.
Proof.
  revert s. induction xs as [| y ys IH]; intros s H x Hx; [destruct Hx |].
  cbn [for_each] in H. destruct (body s y) as [s1 |] eqn:E; [| discriminate H].
  destruct Hx as [-> | Hx]; [exists s, s1; exact E | exact (IH s1 H x Hx)].
Qed.

Lemma In_range4 (i : nat) : (i < 4)%nat -> In i (py_range 0 4 1).
Proof.
  intros H. change (py_range 0 4 1) with [0; 1; 2; 3]%nat.
  cbn [In]. lia.
Qed.

Lemma mat4_multiply_step_defined (a b r r' : mat) (i j k : nat) :
  mat4_multiply_step a b i j r k = Some r' ->
  is_Some (mat_get a i k) /\ is_Some (mat_get b k j).
Proof.
  unfold mat4_multiply_step. intros H. invert_binds H. split; eauto.
Qed.

Lemma mat4_multiply_reads (a b c : mat) (i j k : nat) :
  mat4_multiply a b = Some c ->
  (i < 4)%nat -> (j < 4)%nat -> (k < 4)%nat ->
  is_Some (mat_get a i k) /\ is_Some (mat_get b k j).
Proof.
  unfold mat4_multiply. intros H Hi Hj Hk.
  destruct (for_each_body_defined _ _ _ _ H i (In_range4 i Hi)) as (r1 & r2 & H1).
  destruct (for_each_body_defined _ _ _ _ H1 j (In_range4 j Hj)) as (r3 & r4 & H2).
  destruct (for_each_body_defined _ _ _ _ H2 k (In_range4 k Hk)) as (r5 & r6 & H3).
  exact (mat4_multiply_step_defined a b r5 r6 i j k H3).
Qed.

Lemma has_row4 (m : mat) (i : nat) :
  (forall j : nat, (j < 4)%nat -> is_Some (mat_get m i j)) ->
  exists (x0 x1 x2 x3 : R) (rest : list R),
    m !! i = Some (x0 :: x1 :: x2 :: x3 :: rest).
Proof.
  intros H. pose proof (H 3%nat ltac:(lia)) as [x Hx].
  unfold mat_get in Hx. destruct (m !! i) as [row |]; [| discriminate Hx].
  cbn [mbind option_bind] in Hx.
  destruct row as [| x0 [| x1 [| x2 [| x3 rest]]]]; try discriminate Hx.
  eauto 6.
Qed.

Lemma has_block4_inv (m : mat) :
  has_block4 m ->
  exists (m00 m01 m02 m03 m10 m11 m12 m13 m20 m21 m22 m23 m30 m31 m32 m33 : R)
         (t0 t1 t2 t3 : list R) (rest : mat),
    m = (m00 :: m01 :: m02 :: m03 :: t0) :: (m10 :: m11 :: m12 :: m13 :: t1) ::
        (m20 :: m21 :: m22 :: m23 :: t2) :: (m30 :: m31 :: m32 :: m33 :: t3) ::
        rest.
Proof.
  intros H.
  destruct (has_row4 m 0 (fun j Hj => H 0%nat j ltac:(lia) Hj))
    as (m00 & m01 & m02 & m03 & t0 & H0).
  destruct (has_row4 m 1 (fun j Hj => H 1%nat j ltac:(lia) Hj))
    as (m10 & m11 & m12 & m13 & t1 & H1).
  destruct (has_row4 m 2 (fun j Hj => H 2%nat j ltac:(lia) Hj))
    as (m20 & m21 & m22 & m23 & t2 & H2).
  destruct (has_row4 m 3 (fun j Hj => H 3%nat j ltac:(lia) Hj))
    as (m30 & m31 & m32 & m33 & t3 & H3).
  destruct m as [| r0 [| r1 [| r2 [| r3 rest]]]]; try discriminate.
  cbn in H0, H1, H2, H3.
  injection H0 as ->. injection H1 as ->. injection H2 as ->. injection H3 as ->.
  repeat eexists.
Qed.

(** The product reads only the upper-left 4x4 blocks of its arguments. *)
Lemma mat4_multiply_blocks
    (a00 a01 a02 a03 a10 a11 a12 a13 a20 a21 a22 a23 a30 a31 a32 a33
     b00 b01 b02 b03 b10 b11 b12 b13 b20 b21 b22 b23 b30 b31 b32 b33 : R)
    (s0 s1 s2 s3 t0 t1 t2 t3 : list R) (arest brest : mat) :
  mat4_multiply
    ((a00 :: a01 :: a02 :: a03 :: s0) :: (a10 :: a11 :: a12 :: a13 :: s1) ::
     (a20 :: a21 :: a22 :: a23 :: s2) :: (a30 :: a31 :: a32 :: a33 :: s3) ::
     arest)
    ((b00 :: b01 :: b02 :: b03 :: t0) :: (b10 :: b11 :: b12 :: b13 :: t1) ::
     (b20 :: b21 :: b22 :: b23 :: t2) :: (b30 :: b31 :: b32 :: b33 :: t3) ::
     brest)
  = mat4_multiply
      [ [a00; a01; a02; a03]; [a10; a11; a12; a13];
        [a20; a21; a22; a23]; [a30; a31; a32; a33] ]
      [ [b00; b01; b02; b03]; [b10; b11; b12; b13];
        [b20; b21; b22; b23]; [b30; b31; b32; b33] ].
Proof. reflexivity. Qed.

(** X14. [mat4_multiply a b] returns a result exactly when both
    arguments have entries [m[i][j]] for all [i, j < 4]; otherwise an
    index is out of range and it raises.  Rows and columns beyond the
    fourth are ignored, and the result is always exactly 4x4, with the
    row-by-column sums as entries. *)
Theorem mat4_multiply_defined (a b : mat) :
  (is_Some (mat4_multiply a b) <-> has_block4 a /\ has_block4 b) /\
  (forall c : mat, mat4_multiply a b = Some c ->
     is_mat4 c /\
     forall i j : nat, (i < 4)%nat -> (j < 4)%nat ->
       mat_entry c i j = row_by_column a b i j).
Proof.
  assert (Hblocks : has_block4 a -> has_block4 b ->
            exists c : mat,
              mat4_multiply a b = Some c /\ is_mat4 c /\
              forall i j : nat, (i < 4)%nat -> (j < 4)%nat ->
                mat_entry c i j = row_by_column a b i j).
  { intros Ha Hb.
    destruct (has_block4_inv a Ha)
      as (a00 & a01 & a02 & a03 & a10 & a11 & a12 & a13 &
          a20 & a21 & a22 & a23 & a30 & a31 & a32 & a33 &
          s0 & s1 & s2 & s3 & arest & ->).
    destruct (has_block4_inv b Hb)
      as (b00 & b01 & b02 & b03 & b10 & b11 & b12 & b13 &
          b20 & b21 & b22 & b23 & b30 & b31 & b32 & b33 &
          t0 & t1 & t2 & t3 & brest & ->).
    rewrite mat4_multiply_blocks, mat4_multiply_entries.
    eexists. split; [reflexivity |].
    split; [split; [reflexivity | repeat constructor] |].
    intros i j Hi Hj.
    destruct i as [| [| [| [| i]]]]; try lia;
      destruct j as [| [| [| [| j]]]]; try lia;
      unfold row_by_column, mat_entry; cbn [nth]; ring. }
  assert (Hreads : forall c, mat4_multiply a b = Some c ->
            has_block4 a /\ has_block4 b).
  { intros c Hc. split; intros i j Hi Hj.
    - exact (proj1 (mat4_multiply_reads a b c i 0 j Hc Hi ltac:(lia) Hj)).
    - exact (proj2 (mat4_multiply_reads a b c 0 j i Hc ltac:(lia) Hj Hi)). }
  split; [split |].
  - intros [c Hc]. exact (Hreads c Hc).
  - intros [Ha Hb]. destruct (Hblocks Ha Hb) as (c & Hc & _). exists c. exact Hc.
  - intros c Hc. destruct (Hreads c Hc) as [Ha Hb].
    destruct (Hblocks Ha Hb) as (c' & Hc' & Hshape & Hentries).
    rewrite Hc in Hc'. injection Hc' as <-. split; assumption.
Qed.

Lemma mat4_multiply_defined_witness :
  ~ is_Some (mat4_multiply mat4_identity [ [1; 2; 3; 4]; [5; 6; 7; 8]; [9; 10; 11; 12] ]).
Proof.
  intros H.
  apply (proj1 (proj1 (mat4_multiply_defined _ _))) in H.
  destruct H as [_ Hb]. destruct (Hb 3%nat 0%nat ltac:(lia) ltac:(lia)) as [x Hx].
  discriminate Hx.
Defined.

(** Reduce an equation between lists (of lists) of numbers to equations
    between the entries. *)
Ltac entrywise :=
  repeat match goal with
         | |- Some _ = Some _ => apply f_equal
         | |- _ :: _ = _ :: _ => apply f_equal2
         | |- @nil _ = @nil _ => reflexivity
         end.






(** ** More on the view matrix *)




Lemma main_camera_lengths :
  let n := norm3 (0 - 0) (0 - 2) (0 - 5) in
  let f0 := (0 - 0) * (1 / n) in
  let f1 := (0 - 2) * (1 / n) in
  let f2 := (0 - 5) * (1 / n) in
  let nc := norm3 (f1 * 0 - f2 * 1) (f2 * 0 - f0 * 0) (f0 * 1 - f1 * 0) in
  n * n = 29 /\ 5 < n < 6 /\ nc = 5 / n /\ n > 0.0001 /\ nc > 0.0001.
Proof.
  intros n f0 f1 f2 nc.
  assert (Hsq : n * n = 29) by (unfold n; rewrite norm3_square; ring).
  assert (Hpos : 0 <= n) by (apply sqrt_pos).
  assert (Hn : 5 < n < 6) by nra.
  assert (Hnc : nc = 5 / n).
  { unfold nc. apply norm3_eq.
    - apply Rlt_le. apply Rdiv_lt_0_compat; lra.
    - unfold f0, f1, f2. field. lra. }
  split; [exact Hsq |]. split; [exact Hn |]. split; [exact Hnc |].
  split; [lra |]. rewrite Hnc.
  assert (5 / 6 < 5 / n).
  { unfold Rdiv. apply Rmult_lt_compat_l; [lra |].
    apply Rinv_lt_contravar; nra. }
  lra.
Qed.




Lemma vec3_normalize_three (x y z : R) :
  exists a b c : R, vec3_normalize [x; y; z] = Some [a; b; c].
Proof.
  destruct (Rgt_dec (norm3 x y z) 0.0001) as [H | H].
  - do 3 eexists. apply vec3_normalize_long. exact H.
  - do 3 eexists. apply vec3_normalize_short. lra.
Qed.

(** X19. [mat4_look_at] never raises on three 3-vectors, degenerate or
    not: it always returns a 4x4 matrix whose last row is [0 0 0 1].  When
    [eye] and [target] coincide nothing is normalized and every entry of
    rows 0, 1 and 2 is zero, so the matrix sends every point to
    [(0, 0, 0, 1)]. *)
Theorem mat4_look_at_total (ex ey ez tx ty tz ux uy uz : R) :
  exists m : mat,
    mat4_look_at [ex; ey; ez] [tx; ty; tz] [ux; uy; uz] = Some m /\
    is_mat4 m /\
    m !! 3%nat = Some [0; 0; 0; 1] /\
    (ex = tx -> ey = ty -> ez = tz ->
       forall i j : nat, (i < 3)%nat -> (j < 4)%nat -> mat_entry m i j = 0).
Proof.
  destruct (vec3_normalize_three (tx - ex) (ty - ey) (tz - ez))
    as (f0 & f1 & f2 & Hf).
  destruct (vec3_normalize_three
              (f1 * uz - f2 * uy) (f2 * ux - f0 * uz) (f0 * uy - f1 * ux))
    as (r0 & r1 & r2 & Hr).
  pose proof (mat4_look_at_rows ex ey ez tx ty tz ux uy uz _ _ _ _ _ _ Hf Hr) as Hm.
  cbv zeta in Hm.
  eexists. split; [exact Hm |].
  split; [split; [reflexivity | repeat constructor] |].
  split; [reflexivity |].
  intros -> -> -> i j Hi Hj.
  assert (Hz : norm3 (tx - tx) (ty - ty) (tz - tz) = 0) by (apply norm3_eq; lra).
  rewrite vec3_normalize_short in Hf by (rewrite Hz; lra).
  injection Hf as <- <- <-.
  assert (Hzc : norm3 ((ty - ty) * uz - (tz - tz) * uy)
                      ((tz - tz) * ux - (tx - tx) * uz)
                      ((tx - tx) * uy - (ty - ty) * ux) = 0)
    by (apply norm3_eq; [lra | ring]).
  rewrite vec3_normalize_short in Hr by (rewrite Hzc; lra).
  injection Hr as <- <- <-.
  destruct i as [| [| [| i]]]; try lia;
    destruct j as [| [| [| [| j]]]]; try lia;
    unfold mat_entry; cbn [nth]; ring.
Qed.

Lemma mat4_look_at_total_witness :
  exists m : mat,
    mat4_look_at [1; 2; 3] [1; 2; 3] [0; 1; 0] = Some m /\
    mat_entry m 2 3 = 0.
Proof.
  destruct (mat4_look_at_total 1 2 3 1 2 3 0 1 0) as (m & Hm & _ & _ & Hz).
  exists m. split; [exact Hm |].
  apply Hz; reflexivity || lia.
Defined.

(** ** Rotations *)

Lemma mat4_rotate_x_value (a : R) :
  mat4_rotate_x a
  = Some [ [1; 0; 0; 0]; [0; cos a; - sin a; 0];
           [0; sin a; cos a; 0]; [0; 0; 0; 1] ].
Proof. reflexivity. Qed.

Lemma mat4_rotate_y_value (a : R) :
  mat4_rotate_y a
  = Some [ [cos a; 0; sin a; 0]; [0; 1; 0; 0];
           [- sin a; 0; cos a; 0]; [0; 0; 0; 1] ].
Proof. reflexivity. Qed.

Lemma sin_cos_unit (a : R) : sin a * sin a + cos a * cos a = 1.
Proof. exact (sin2_cos2 a). Qed.




(** Rotating about x and then about y keeps the Euclidean length. *)
Lemma model_rotation_norm (a b x y z : R) :
  let x' := cos a * x + sin a * sin b * y + sin a * cos b * z in
  let y' := cos b * y - sin b * z in
  let z' := - sin a * x + cos a * sin b * y + cos a * cos b * z in
  x' * x' + y' * y' + z' * z' = x * x + y * y + z * z.
Proof.
  intros x' y' z'.
  pose proof (sin_cos_unit a) as Ha. pose proof (sin_cos_unit b) as Hb.
  set (qz := sin b * y + cos b * z).
  replace (x' * x' + y' * y' + z' * z')
    with (x * x + y * y + z * z
          + (x * x + qz * qz) * (sin a * sin a + cos a * cos a - 1)
          + (y * y + z * z) * (sin b * sin b + cos b * cos b - 1))
    by (unfold x', y', z', qz; ring).
  rewrite Ha, Hb. ring.
Qed.


(** ** The projection matrix *)

Lemma mat4_perspective_value (fov_y aspect near far : R) :
  aspect * tan (fov_y / 2.0) <> 0 -> far - near <> 0 ->
  mat4_perspective fov_y aspect near far
  = Some [ [1.0 / (aspect * tan (fov_y / 2.0)); 0; 0; 0];
           [0; 1.0 / tan (fov_y / 2.0); 0; 0];
           [0; 0; - (far + near) / (far - near);
            - (2.0 * far * near) / (far - near)];
           [0; 0; - 1.0; 0] ].
Proof.
  intros Hat Hfn.
  assert (Ht : tan (fov_y / 2.0) <> 0).
  { intros H0. apply Hat. rewrite H0. ring. }
  unfold mat4_perspective, py_div. cbv zeta.
  destruct (Req_dec_T (aspect * tan (fov_y / 2.0)) 0); [contradiction |].
  destruct (Req_dec_T (tan (fov_y / 2.0)) 0); [contradiction |].
  destruct (Req_dec_T (far - near) 0); [contradiction |].
  reflexivity.
Qed.





(** ** More on vertex transformation *)






(** ** A whole frame *)

Lemma clip_coord_product (a b c : mat) (x y z : R) (i : nat) :
  (forall i j : nat, (i < 4)%nat -> (j < 4)%nat ->
     mat_entry c i j = row_by_column a b i j) ->
  (i < 4)%nat ->
  clip_coord c x y z i
  = mat_entry a i 0 * clip_coord b x y z 0 +
    mat_entry a i 1 * clip_coord b x y z 1 +
    mat_entry a i 2 * clip_coord b x y z 2 +
    mat_entry a i 3 * clip_coord b x y z 3.
Proof.
  intros H Hi. unfold clip_coord. rewrite !H by lia.
  unfold row_by_column. ring.
Qed.

Lemma rotation_product (a b : R) :
  mat4_multiply
    [ [cos a; 0; sin a; 0]; [0; 1; 0; 0]; [- sin a; 0; cos a; 0]; [0; 0; 0; 1] ]
    [ [1; 0; 0; 0]; [0; cos b; - sin b; 0]; [0; sin b; cos b; 0]; [0; 0; 0; 1] ]
  = Some [ [cos a; sin a * sin b; sin a * cos b; 0];
           [0; cos b; - sin b; 0];
           [- sin a; cos a * sin b; cos a * cos b; 0];
           [0; 0; 0; 1] ].
Proof. rewrite mat4_multiply_entries. entrywise; ring. Qed.

(** The projection of [main]: defined, with last row [0 0 -1 0]. *)
Lemma main_proj_value :
  exists p : mat,
    main_proj = Some p /\ is_mat4 p /\
    mat_entry p 3 0 = 0 /\ mat_entry p 3 1 = 0 /\
    mat_entry p 3 2 = -1 /\ mat_entry p 3 3 = 0.
Proof.
  unfold main_proj. cbv zeta.
  assert (Ht : IZR SCREEN_WIDTH / IZR SCREEN_HEIGHT
               * tan (60.0 * PI / 180.0 / 2.0) <> 0).
  { replace (60.0 * PI / 180.0 / 2.0) with (PI / 6) by lra.
    rewrite tan_PI6. unfold SCREEN_WIDTH, SCREEN_HEIGHT.
    assert (0 < sqrt 3) by (apply sqrt_lt_R0; lra).
    assert (0 < 1 / sqrt 3) by (apply Rdiv_lt_0_compat; lra).
    nra. }
  rewrite (mat4_perspective_value _ _ 0.1 100.0 Ht) by lra.
  eexists. split; [reflexivity |].
  split; [split; [reflexivity | repeat constructor] |].
  unfold mat_entry. cbn [nth]. repeat split; lra.
Qed.

(** The view of [main]: defined, with third row [(0, 2, 5) / n] and
    translation [-n], where [n = sqrt 29] is the distance of the camera
    from the origin. *)
Lemma main_view_value :
  exists (v : mat) (n : R),
    main_view = Some v /\ is_mat4 v /\
    n * n = 29 /\ 5 < n < 6 /\
    mat_entry v 2 0 = 0 /\ mat_entry v 2 1 = 2 / n /\
    mat_entry v 2 2 = 5 / n /\ mat_entry v 2 3 = - n.
Proof.
  destruct main_camera_lengths as (Hsq & Hn56 & _ & Hn & Hnc).
  pose proof (vec3_normalize_long _ _ _ Hn) as Hf.
  pose proof (vec3_normalize_long _ _ _ Hnc) as Hr.
  cbv zeta in Hf, Hr.
  pose proof (mat4_look_at_rows 0 2 5 0 0 0 0 1 0 _ _ _ _ _ _ Hf Hr) as Hm.
  cbv zeta in Hm.
  unfold main_view. rewrite Hm.
  eexists. exists (norm3 (0 - 0) (0 - 2) (0 - 5)).
  split; [reflexivity |].
  split; [split; [reflexivity | repeat constructor] |].
  split; [exact Hsq |]. split; [exact Hn56 |].
  unfold mat_entry. cbn [nth].
  set (n := norm3 (0 - 0) (0 - 2) (0 - 5)) in *.
  repeat split; try (field; lra).
  replace (- n) with (- (n * n) / n) by (field; lra).
  rewrite Hsq. field. lra.
Qed.

(** A point at distance [sqrt 3] from the origin is in front of a camera
    at [(0, 2, 5)] that looks at the origin. *)
Lemma corner_in_front (qx qy qz : R) :
  qx * qx + qy * qy + qz * qz = 3 -> 2 * qy + 5 * qz < 29.
Proof.
  intros Hq.
  assert (Hcs : (2 * qy + 5 * qz) * (2 * qy + 5 * qz) <= 87).
  { replace ((2 * qy + 5 * qz) * (2 * qy + 5 * qz))
      with (29 * (qy * qy + qz * qz) - (5 * qy - 2 * qz) * (5 * qy - 2 * qz))
      by ring.
    pose proof (Rle_0_sqr (5 * qy - 2 * qz)) as H1. unfold Rsqr in H1.
    pose proof (Rle_0_sqr qx) as H2. unfold Rsqr in H2.
    lra. }
  destruct (Rlt_dec (2 * qy + 5 * qz) 29) as [H | H]; [exact H |].
  assert (H29 : 29 <= 2 * qy + 5 * qz) by lra.
  assert (29 * 29 <= (2 * qy + 5 * qz) * (2 * qy + 5 * qz))
    by (apply Rmult_le_compat; lra).
  lra.
Qed.

(** With the projection and the view of [main], whatever the frame, every
    corner of the cube has a non-zero (in fact positive) clip [w]: the
    camera is [sqrt 29] away from the center and the rotated corners stay
    at distance [sqrt 3]. *)
Lemma frame_mvp_safe (p v : mat) (n : R) (frame : nat) :
  is_mat4 p -> is_mat4 v ->
  mat_entry p 3 0 = 0 -> mat_entry p 3 1 = 0 ->
  mat_entry p 3 2 = -1 -> mat_entry p 3 3 = 0 ->
  n * n = 29 -> 5 < n < 6 ->
  mat_entry v 2 0 = 0 -> mat_entry v 2 1 = 2 / n ->
  mat_entry v 2 2 = 5 / n -> mat_entry v 2 3 = - n ->
  exists mvp : mat,
    frame_mvp p v frame = Some mvp /\ is_mat4 mvp /\
    forall x y z : R, x * x = 1 -> y * y = 1 -> z * z = 1 ->
      clip_coord mvp x y z 3 <> 0.
Proof.
  intros Hp Hv P0 P1 P2 P3 Hsq Hn V0 V1 V2 V3.
  unfold frame_mvp. cbv zeta.
  set (a := frame_angle frame). set (b := a * 0.7).
  rewrite mat4_rotate_y_value, mat4_rotate_x_value.
  cbn [mbind option_bind]. rewrite rotation_product.
  cbn [mbind option_bind].
  set (model := [ [cos a; sin a * sin b; sin a * cos b; 0];
                  [0; cos b; - sin b; 0];
                  [- sin a; cos a * sin b; cos a * cos b; 0];
                  [0; 0; 0; 1] ]).
  assert (Hmodel : is_mat4 model) by (split; [reflexivity | repeat constructor]).
  destruct (mat4_multiply_product v model Hv Hmodel) as (mv & Hmv & Smv & Emv).
  rewrite Hmv. cbn [mbind option_bind].
  destruct (mat4_multiply_product p mv Hp Smv) as (mvp & Hmvp & Smvp & Emvp).
  rewrite Hmvp. exists mvp. split; [reflexivity |]. split; [exact Smvp |].
  intros x y z Hx Hy Hz.
  rewrite (clip_coord_product p mv mvp x y z 3 Emvp) by lia.
  rewrite P0, P1, P2, P3.
  rewrite (clip_coord_product v model mv x y z 2 Emv) by lia.
  rewrite V0, V1, V2, V3.
  rewrite !Rmult_0_l. unfold clip_coord, mat_entry, model. cbn [nth].
  pose proof (model_rotation_norm a b x y z) as Hnorm. cbv zeta in Hnorm.
  set (qx := cos a * x + sin a * sin b * y + sin a * cos b * z) in *.
  set (qy := cos b * y - sin b * z) in *.
  set (qz := - sin a * x + cos a * sin b * y + cos a * cos b * z) in *.
  assert (Hlt : 2 * qy + 5 * qz < 29).
  { apply (corner_in_front qx). rewrite Hnorm, Hx, Hy, Hz. lra. }
  intros Hzero.
  match type of Hzero with
  | ?w = 0 =>
      assert (Hw : w * n = n * n - (2 * qy + 5 * qz))
        by (unfold qy, qz; field; lra)
  end.
  rewrite Hzero, Hsq in Hw. lra.
Qed.

Lemma cube_triangle_defined (mvp : mat) (i : nat) :
  is_mat4 mvp ->
  (forall x y z : R, x * x = 1 -> y * y = 1 -> z * z = 1 ->
     clip_coord mvp x y z 3 <> 0) ->
  In i (py_range 0 36 3) ->
  is_Some (cube_triangle mvp i).
Proof.
  intros Hm Hw Hi. rewrite py_range_triangles in Hi. cbn [In] in Hi.
  unfold cube_triangle.
  repeat (destruct Hi as [<- | Hi]; [
    cbn [Nat.div Nat.divmod fst Nat.add FACE_COLORS CUBE_INDICES
         CUBE_POSITIONS CUBE_UVS lookup list_lookup mbind option_bind];
    rewrite !(transform_vertex_value _ _ _ _ _ _ _ _ mvp Hm)
      by (apply Hw; lra);
    cbn [mbind option_bind]; eexists; reflexivity |]).
  destruct Hi.
Qed.

Lemma render_cube_defined (ser : Serial) (mvp : mat) :
  (forall i : nat, In i (py_range 0 36 3) -> is_Some (cube_triangle mvp i)) ->
  is_Some (render_cube ser mvp).
Proof.
  unfold render_cube. generalize (py_range 0 36 3). intros xs.
  revert ser. induction xs as [| x xs IH]; intros ser H; cbn [for_each].
  - eexists. reflexivity.
  - destruct (H x ltac:(left; reflexivity)) as [[[v0 v1] v2] Ht].
    rewrite Ht, send_triangle_written.
    apply IH. intros i Hi. apply H. right. exact Hi.
Qed.

(** What a completed render loop has written: one 121-byte triangle
    command per iteration, each opening with the opcode [0x03]. *)
Lemma render_cube_written (ser ser' : Serial) (mvp : mat) :
  render_cube ser mvp = Some ser' ->
  exists tris : list (list byte),
    written ser' = written ser ++ concat tris /\
    length tris = 12%nat /\
    Forall (fun t => length t = 121%nat /\ head t = Some Byte.x03) tris.
Proof.
  unfold render_cube.
  assert (Hgen : forall (xs : list nat) (s s' : Serial),
             for_each xs
               (fun ser i =>
                  match cube_triangle mvp i with
                  | Some (v0, v1, v2) => send_triangle ser v0 v1 v2
                  | None => None
                  end) s = Some s' ->
             exists tris : list (list byte),
               written s' = written s ++ concat tris /\
               length tris = length xs /\
               Forall (fun t => length t = 121%nat /\ head t = Some Byte.x03)
                      tris).
  { induction xs as [| x xs IH]; intros s s' H; cbn [for_each] in H.
    - injection H as <-. exists []. cbn [concat]. rewrite app_nil_r.
      repeat split. constructor.
    - destruct (cube_triangle mvp x) as [[[v0 v1] v2] |]; [| discriminate H].
      rewrite send_triangle_written in H.
      destruct (IH _ _ H) as (tris & Hw & Hl & Hall). cbn [written] in Hw.
      exists (([Byte.x03] ++ vertex_record v0 ++ vertex_record v1 ++
               vertex_record v2) :: tris).
      split; [| split].
      + rewrite Hw. cbn [concat]. rewrite <- !app_assoc. reflexivity.
      + cbn [length]. rewrite Hl. reflexivity.
      + constructor; [| exact Hall]. split; [| reflexivity].
        rewrite !length_app, !vertex_record_length. reflexivity. }
  intros H. destruct (Hgen _ _ _ H) as (tris & Hw & Hl & Hall).
  exists tris. rewrite py_range_triangles in Hl. auto.
Qed.

Lemma render_frame_length (ser ser' : Serial) (proj view : mat)
    (bg_color : Z) (frame : nat) :
  render_frame ser proj view bg_color frame = Some ser' ->
  length (written ser') = (length (written ser) + 1456)%nat.
Proof.
  unfold render_frame. intros H.
  destruct (frame_mvp proj view frame) as [mvp |]; [| discriminate H].
  cbn [mbind option_bind] in H.
  destruct (send_clear_fb ser bg_color) as [s1 |] eqn:E1; [| discriminate H].
  cbn [mbind option_bind] in H.
  change (send_clear_depth ?s) with (Some (ser_write s [Byte.x02])) in H.
  cbn [mbind option_bind] in H.
  apply render_cube_length in H. rewrite H.
  assert (Hbg : (0 <= bg_color < 2 ^ 16)%Z).
  { destruct (Z.leb_spec 0 bg_color); destruct (Z.ltb_spec bg_color (2 ^ 16));
      try lia;
      rewrite send_clear_fb_out_of_range in E1 by lia; discriminate E1. }
  rewrite send_clear_fb_in_range in E1 by exact Hbg. injection E1 as <-.
  unfold ser_write. cbn [written].
  rewrite !length_app. cbn [length]. rewrite ?length_le_bytes. lia.
Qed.

(** With the set-up of [main] every frame is rendered to the end. *)
Lemma main_render_frame_defined (ser : Serial) (frame : nat) :
  exists (p v : mat) (ser' : Serial),
    main_proj = Some p /\ main_view = Some v /\
    render_frame ser p v main_bg_color frame = Some ser'.
Proof.
  destruct main_proj_value as (p & Hp & Sp & P0 & P1 & P2 & P3).
  destruct main_view_value as (v & n & Hv & Sv & Hsq & Hn & V0 & V1 & V2 & V3).
  destruct (frame_mvp_safe p v n frame Sp Sv P0 P1 P2 P3 Hsq Hn V0 V1 V2 V3)
    as (mvp & Hmvp & Smvp & Hw).
  assert (Hbg : (0 <= main_bg_color < 2 ^ 16)%Z).
  { apply (proj1 (pack_rgb565_sign 0.1 0.1 0.25)).
    - assert (0 < / 31) by (apply Rinv_0_lt_compat; lra). lra.
    - assert (0 < / 63) by (apply Rinv_0_lt_compat; lra). lra.
    - assert (0 < / 31) by (apply Rinv_0_lt_compat; lra). lra. }
  assert (Hframe : is_Some (render_frame ser p v main_bg_color frame)).
  { unfold render_frame. rewrite Hmvp. cbn [mbind option_bind].
    rewrite send_clear_fb_in_range by exact Hbg.
    cbn [mbind option_bind].
    change (send_clear_depth ?s) with (Some (ser_write s [Byte.x02])).
    cbn [mbind option_bind].
    apply render_cube_defined. intros i Hi.
    apply cube_triangle_defined; assumption. }
  destruct Hframe as [ser' Hser']. exists p, v, ser'. auto.
Qed.

(** X26. A frame on the wire: whatever the matrices, background color
    and frame number, an iteration of the loop that completes has written
    exactly [3 + 1 + 12 * 121 = 1456] bytes: the framebuffer clear
    ([0x01] and the color, low byte first), the depth clear ([0x02]) and
    twelve 121-byte triangle commands, each opening with [0x03]. *)
Theorem render_frame_bytes (ser ser' : Serial) (proj view : mat)
    (bg_color : Z) (frame : nat) :
  render_frame ser proj view bg_color frame = Some ser' ->
  exists tris : list (list byte),
    written ser' =
      written ser ++ [Byte.x01] ++ le_bytes 2 bg_color ++ [Byte.x02] ++
      concat tris /\
    le_value (le_bytes 2 bg_color) = bg_color /\
    length tris = 12%nat /\
    Forall (fun t => length t = 121%nat /\ head t = Some Byte.x03) tris /\
    length (written ser') = (length (written ser) + 1456)%nat.
Proof.
  unfold render_frame. intros H.
  destruct (frame_mvp proj view frame) as [mvp |]; [| discriminate H].
  cbn [mbind option_bind] in H.
  assert (Hbg : (0 <= bg_color < 2 ^ 16)%Z).
  { destruct (Z.leb_spec 0 bg_color); destruct (Z.ltb_spec bg_color (2 ^ 16));
      try lia;
      rewrite send_clear_fb_out_of_range in H by lia; discriminate H. }
  rewrite send_clear_fb_in_range in H by exact Hbg.
  cbn [mbind option_bind] in H.
  change (send_clear_depth ?s) with (Some (ser_write s [Byte.x02])) in H.
  cbn [mbind option_bind] in H.
  pose proof (render_cube_length _ _ _ H) as Hlen.
  destruct (render_cube_written _ _ _ H) as (tris & Hw & Hl & Hall).
  unfold ser_write in Hw, Hlen. cbn [written] in Hw, Hlen.
  exists tris. split; [| split; [| split; [| split]]].
  - rewrite Hw. rewrite <- !app_assoc. reflexivity.
  - apply (le_value_le_bytes 2). exact Hbg.
  - exact Hl.
  - exact Hall.
  - rewrite Hlen, !length_app. cbn [length]. rewrite length_le_bytes. lia.
Qed.

Lemma render_frame_bytes_witness :
  exists (p v : mat) (ser' : Serial),
    render_frame {| written := [] |} p v main_bg_color 7 = Some ser' /\
    length (written ser') = 1456%nat.
Proof.
  destruct (main_render_frame_defined {| written := [] |} 7)
    as (p & v & ser' & _ & _ & H).
  exists p, v, ser'. split; [exact H |].
  destruct (render_frame_bytes _ _ _ _ _ _ H) as (tris & _ & _ & _ & _ & Hlen).
  exact Hlen.
Defined.

(** X27. The frame [main] sends never fails: with the projection, the
    camera and the background color [main] sets up, for every frame
    number the matrices are defined, no cube corner has a zero clip [w]
    (the camera is [sqrt 29] from the center, the corners [sqrt 3]), the
    clear color is a 16-bit value, and the iteration writes exactly 1456
    bytes.  At ten line bits per byte (eight data bits framed by a start
    and a stop bit) these take less than the pacing interval
    [min_frame_time] at [BAUD_RATE]. *)
Theorem main_frame_total (ser : Serial) (frame : nat) :
  (exists ser' : Serial,
     main_frame ser frame = Some ser' /\
     length (written ser') = (length (written ser) + 1456)%nat) /\
  10 * 1456 / IZR BAUD_RATE < min_frame_time.
Proof.
  split; [| unfold BAUD_RATE, min_frame_time; lra].
  destruct (main_render_frame_defined ser frame) as (p & v & ser' & Hp & Hv & H).
  exists ser'. split.
  - unfold main_frame. rewrite Hp, Hv. exact H.
  - exact (render_frame_length _ _ _ _ _ _ H).
Qed.

(** ** The animation *)

Lemma frame_angle_period (frame : nat) :
  frame_angle (frame + 60) = frame_angle frame.
Proof.
  unfold frame_angle.
  replace (frame + 60)%nat with (frame + 1 * 60)%nat by lia.
  rewrite Nat.Div0.mod_add. reflexivity.
Qed.

(** X28. The animation has period 60: the rotation angle of a frame is
    [2 pi (frame mod 60) / 60], always in [0, 2 pi), it advances by
    [2 pi / 60] from a frame to the next inside a period, and frame
    [frame + 60] is rendered exactly as frame [frame] is, byte for
    byte. *)
Theorem frame_period (frame : nat) :
  0 <= frame_angle frame < 2 * PI /\
  ((frame mod 60 < 59)%nat ->
     frame_angle (frame + 1) = frame_angle frame + 2 * PI / 60) /\
  frame_angle (frame + 60) = frame_angle frame /\
  forall (ser : Serial) (proj view : mat) (bg_color : Z),
    render_frame ser proj view bg_color (frame + 60)
    = render_frame ser proj view bg_color frame.
Proof.
  pose proof PI_RGT_0 as Hpi.
  assert (Hm : (frame mod 60 < 60)%nat) by (apply Nat.mod_upper_bound; lia).
  assert (H0 : 0 <= INR (frame mod 60)) by apply pos_INR.
  assert (H59 : INR (frame mod 60) <= 59).
  { replace 59 with (INR 59) by (rewrite INR_IZR_INZ; reflexivity).
    apply le_INR. lia. }
  split; [| split; [| split]].
  - unfold frame_angle. split.
    + apply Rmult_le_pos; [| lra]. lra.
    + assert (INR (frame mod 60) / 60.0 * 2.0 < 2) by lra. nra.
  - intros Hlt. unfold frame_angle.
    assert (Hnext : ((frame + 1) mod 60 = frame mod 60 + 1)%nat).
    { rewrite Nat.Div0.add_mod by lia.
      change (1 mod 60)%nat with 1%nat. apply Nat.mod_small. lia. }
    rewrite Hnext, plus_INR. change (INR 1) with 1. lra.
  - apply frame_angle_period.
  - intros ser proj view bg_color. unfold render_frame, frame_mvp.
    rewrite frame_angle_period. reflexivity.
Qed.

Lemma frame_period_witness :
  frame_angle (61 + 1) = frame_angle 61 + 2 * PI / 60.
Proof.
  apply (proj1 (proj2 (frame_period 61))). cbn. lia.
Defined.

(** ** The cube stays on screen *)

(** How the projection of [main] acts on a vector: x and y are scaled by
    [sqrt 3 = 1 / tan 30], z is remapped and w becomes minus z. *)
Lemma main_proj_action :
  exists (p : mat) (t : R),
    main_proj = Some p /\ is_mat4 p /\ t * t = 3 /\ 0 < t /\
    forall c0 c1 c2 c3 : R,
      mat_entry p 0 0 * c0 + mat_entry p 0 1 * c1 +
      mat_entry p 0 2 * c2 + mat_entry p 0 3 * c3 = t * c0 /\
      mat_entry p 1 0 * c0 + mat_entry p 1 1 * c1 +
      mat_entry p 1 2 * c2 + mat_entry p 1 3 * c3 = t * c1 /\
      mat_entry p 2 0 * c0 + mat_entry p 2 1 * c1 +
      mat_entry p 2 2 * c2 + mat_entry p 2 3 * c3
        = - (1001 / 999) * c2 - 200 / 999 * c3 /\
      mat_entry p 3 0 * c0 + mat_entry p 3 1 * c1 +
      mat_entry p 3 2 * c2 + mat_entry p 3 3 * c3 = - c2.
Proof.
  unfold main_proj. cbv zeta.
  assert (Hs : 0 < sqrt 3) by (apply sqrt_lt_R0; lra).
  assert (Hss : sqrt 3 * sqrt 3 = 3) by (apply sqrt_sqrt; lra).
  assert (Hangle : 60.0 * PI / 180.0 / 2.0 = PI / 6) by lra.
  assert (Ht : IZR SCREEN_WIDTH / IZR SCREEN_HEIGHT
               * tan (60.0 * PI / 180.0 / 2.0) <> 0).
  { rewrite Hangle, tan_PI6. unfold SCREEN_WIDTH, SCREEN_HEIGHT.
    assert (0 < 1 / sqrt 3) by (apply Rdiv_lt_0_compat; lra).
    nra. }
  rewrite (mat4_perspective_value _ _ 0.1 100.0 Ht) by lra.
  eexists. exists (sqrt 3). split; [reflexivity |].
  split; [split; [reflexivity | repeat constructor] |].
  split; [exact Hss |]. split; [exact Hs |].
  intros c0 c1 c2 c3. unfold mat_entry. cbn [nth].
  rewrite Hangle, tan_PI6. unfold SCREEN_WIDTH, SCREEN_HEIGHT.
  replace 1.0 with 1 by lra. replace 2.0 with 2 by lra.
  replace 100.0 with 100 by lra. replace 0.1 with (1 / 10) by lra.
  replace (-1.0) with (-1) by lra.
  repeat split; field; lra.
Qed.

(** How the view of [main] acts on a vector: the camera axes are
    [(1, 0, 0)], [(0, 5, -2) / n] and [(0, 2, 5) / n], at distance
    [n = sqrt 29] from the origin. *)
Lemma main_view_action :
  exists (v : mat) (n : R),
    main_view = Some v /\ is_mat4 v /\ n * n = 29 /\ 5 < n < 6 /\
    forall q0 q1 q2 q3 : R,
      mat_entry v 0 0 * q0 + mat_entry v 0 1 * q1 +
      mat_entry v 0 2 * q2 + mat_entry v 0 3 * q3 = q0 /\
      mat_entry v 1 0 * q0 + mat_entry v 1 1 * q1 +
      mat_entry v 1 2 * q2 + mat_entry v 1 3 * q3 = (5 * q1 - 2 * q2) / n /\
      mat_entry v 2 0 * q0 + mat_entry v 2 1 * q1 +
      mat_entry v 2 2 * q2 + mat_entry v 2 3 * q3
        = (2 * q1 + 5 * q2) / n - n * q3 /\
      mat_entry v 3 0 * q0 + mat_entry v 3 1 * q1 +
      mat_entry v 3 2 * q2 + mat_entry v 3 3 * q3 = q3.
Proof.
  destruct main_camera_lengths as (Hsq & Hn56 & Hnc5 & Hn & Hnc).
  pose proof (vec3_normalize_long _ _ _ Hn) as Hf.
  pose proof (vec3_normalize_long _ _ _ Hnc) as Hr.
  cbv zeta in Hf, Hr, Hnc5.
  pose proof (mat4_look_at_rows 0 2 5 0 0 0 0 1 0 _ _ _ _ _ _ Hf Hr) as Hm.
  cbv zeta in Hm.
  unfold main_view. rewrite Hm.
  eexists. exists (norm3 (0 - 0) (0 - 2) (0 - 5)).
  split; [reflexivity |].
  split; [split; [reflexivity | repeat constructor] |].
  split; [exact Hsq |]. split; [exact Hn56 |].
  intros q0 q1 q2 q3. unfold mat_entry. cbn [nth].
  rewrite Hnc5.
  set (n := norm3 (0 - 0) (0 - 2) (0 - 5)) in *.
  assert (Hinv : n = 29 / n) by (rewrite <- Hsq; field; lra).
  repeat split.
  - field. lra.
  - field. lra.
  - replace (n * q3) with (29 / n * q3) by (rewrite <- Hinv; reflexivity).
    field. lra.
  - ring.
Qed.

Lemma square_bound (a b : R) : 0 <= b -> a * a <= b * b -> - b <= a <= b.
Proof. intros Hb H. split; nra. Qed.

(** The clip coordinates of a cube corner, for the set-up of [main] and
    any frame: [w] is between 3 and 8, [x] and [y] are within 3 of zero
    and [z] is within [w] of zero. *)
Lemma frame_clip_bounds (frame : nat) :
  exists p v mvp : mat,
    main_proj = Some p /\ main_view = Some v /\
    frame_mvp p v frame = Some mvp /\ is_mat4 mvp /\
    forall x y z : R, x * x = 1 -> y * y = 1 -> z * z = 1 ->
      3 < clip_coord mvp x y z 3 < 8 /\
      -3 <= clip_coord mvp x y z 0 <= 3 /\
      -3 <= clip_coord mvp x y z 1 <= 3 /\
      - clip_coord mvp x y z 3 <= clip_coord mvp x y z 2
        <= clip_coord mvp x y z 3.
Proof.
  destruct main_proj_action as (p & t & Hp & Sp & Htt & Ht & Pact).
  destruct main_view_action as (v & n & Hv & Sv & Hsq & Hn & Vact).
  exists p, v. unfold frame_mvp. cbv zeta.
  set (a := frame_angle frame). set (b := a * 0.7).
  rewrite mat4_rotate_y_value, mat4_rotate_x_value.
  cbn [mbind option_bind]. rewrite rotation_product.
  cbn [mbind option_bind].
  set (model := [ [cos a; sin a * sin b; sin a * cos b; 0];
                  [0; cos b; - sin b; 0];
                  [- sin a; cos a * sin b; cos a * cos b; 0];
                  [0; 0; 0; 1] ]).
  assert (Hmodel : is_mat4 model) by (split; [reflexivity | repeat constructor]).
  destruct (mat4_multiply_product v model Sv Hmodel) as (mv & Hmv & Smv & Emv).
  rewrite Hmv. cbn [mbind option_bind].
  destruct (mat4_multiply_product p mv Sp Smv) as (mvp & Hmvp & Smvp & Emvp).
  rewrite Hmvp. exists mvp.
  split; [exact Hp |]. split; [exact Hv |]. split; [reflexivity |].
  split; [exact Smvp |].
  intros x y z Hx Hy Hz.
  pose proof (model_rotation_norm a b x y z) as Hnorm. cbv zeta in Hnorm.
  set (qx := cos a * x + sin a * sin b * y + sin a * cos b * z) in *.
  set (qy := cos b * y - sin b * z) in *.
  set (qz := - sin a * x + cos a * sin b * y + cos a * cos b * z) in *.
  assert (Q0 : clip_coord model x y z 0 = qx)
    by (unfold clip_coord, mat_entry, model, qx; cbn [nth]; ring).
  assert (Q1 : clip_coord model x y z 1 = qy)
    by (unfold clip_coord, mat_entry, model, qy; cbn [nth]; ring).
  assert (Q2 : clip_coord model x y z 2 = qz)
    by (unfold clip_coord, mat_entry, model, qz; cbn [nth]; ring).
  assert (Q3 : clip_coord model x y z 3 = 1)
    by (unfold clip_coord, mat_entry, model; cbn [nth]; ring).
  destruct (Vact qx qy qz 1) as (V0 & V1 & V2 & V3).
  assert (M0 : clip_coord mv x y z 0 = qx)
    by (rewrite (clip_coord_product v model mv x y z 0 Emv) by lia;
        rewrite Q0, Q1, Q2, Q3; exact V0).
  assert (M1 : clip_coord mv x y z 1 = (5 * qy - 2 * qz) / n)
    by (rewrite (clip_coord_product v model mv x y z 1 Emv) by lia;
        rewrite Q0, Q1, Q2, Q3; exact V1).
  assert (M2 : clip_coord mv x y z 2 = (2 * qy + 5 * qz) / n - n * 1)
    by (rewrite (clip_coord_product v model mv x y z 2 Emv) by lia;
        rewrite Q0, Q1, Q2, Q3; exact V2).
  assert (M3 : clip_coord mv x y z 3 = 1)
    by (rewrite (clip_coord_product v model mv x y z 3 Emv) by lia;
        rewrite Q0, Q1, Q2, Q3; exact V3).
  destruct (Pact qx ((5 * qy - 2 * qz) / n)
                 ((2 * qy + 5 * qz) / n - n * 1) 1) as (P0 & P1 & P2 & P3).
  assert (C0 : clip_coord mvp x y z 0 = t * qx)
    by (rewrite (clip_coord_product p mv mvp x y z 0 Emvp) by lia;
        rewrite M0, M1, M2, M3; exact P0).
  assert (C1 : clip_coord mvp x y z 1 = t * ((5 * qy - 2 * qz) / n))
    by (rewrite (clip_coord_product p mv mvp x y z 1 Emvp) by lia;
        rewrite M0, M1, M2, M3; exact P1).
  assert (C2 : clip_coord mvp x y z 2
               = - (1001 / 999) * ((2 * qy + 5 * qz) / n - n * 1) - 200 / 999 * 1)
    by (rewrite (clip_coord_product p mv mvp x y z 2 Emvp) by lia;
        rewrite M0, M1, M2, M3; exact P2).
  assert (C3 : clip_coord mvp x y z 3 = - ((2 * qy + 5 * qz) / n - n * 1))
    by (rewrite (clip_coord_product p mv mvp x y z 3 Emvp) by lia;
        rewrite M0, M1, M2, M3; exact P3).
  rewrite C0, C1, C2, C3.
  clearbody qx qy qz. clear Q0 Q1 Q2 Q3 M0 M1 M2 M3 C0 C1 C2 C3 V0 V1 V2 V3
    P0 P1 P2 P3.
  rewrite Hx, Hy, Hz in Hnorm.
  set (sn := (2 * qy + 5 * qz) / n). set (dn := (5 * qy - 2 * qz) / n).
  assert (Hsn : sn * n = 2 * qy + 5 * qz) by (unfold sn; field; lra).
  assert (Hdn : dn * n = 5 * qy - 2 * qz) by (unfold dn; field; lra).
  clearbody sn dn.
  assert (Hsum : (sn * sn + dn * dn) * 29 = 29 * (qy * qy + qz * qz)).
  { replace ((sn * sn + dn * dn) * 29)
      with ((sn * n) * (sn * n) + (dn * n) * (dn * n))
      by (rewrite <- Hsq; ring).
    rewrite Hsn, Hdn. ring. }
  assert (Hqx : 0 <= qx * qx) by nra.
  assert (Hsd : sn * sn + dn * dn <= 3) by nra.
  assert (Hs2 : - 2 <= sn <= 2) by (apply square_bound; nra).
  assert (Hcx : - 3 <= t * qx <= 3).
  { apply square_bound; [lra |].
    replace (t * qx * (t * qx)) with (t * t * (qx * qx)) by ring.
    rewrite Htt. nra. }
  assert (Hcy : - 3 <= t * dn <= 3).
  { apply square_bound; [lra |].
    replace (t * dn * (t * dn)) with (t * t * (dn * dn)) by ring.
    rewrite Htt. nra. }
  repeat split; lra.
Qed.

Lemma transform_vertex_on_screen (x y z u v r g b : R) (mvp : mat) :
  is_mat4 mvp ->
  3 < clip_coord mvp x y z 3 < 8 ->
  -3 <= clip_coord mvp x y z 0 <= 3 ->
  -3 <= clip_coord mvp x y z 1 <= 3 ->
  - clip_coord mvp x y z 3 <= clip_coord mvp x y z 2
    <= clip_coord mvp x y z 3 ->
  exists dv : DeviceVertex,
    transform_vertex [x; y; z] [u; v] [r; g; b] mvp = Some dv /\
    on_screen dv.
Proof.
  intros Hm Hw Hx Hy Hz.
  set (cw := clip_coord mvp x y z 3) in *.
  assert (Hw0 : cw <> 0) by lra.
  rewrite (transform_vertex_value x y z u v r g b mvp Hm Hw0).
  eexists. split; [reflexivity |].
  unfold on_screen. cbn [vx vy vz vw]. fold cw.
  unfold SCREEN_WIDTH, SCREEN_HEIGHT.
  replace 1.0 with 1 by lra. replace 16.0 with 16 by lra.
  set (iw := 1 / cw).
  assert (Hiw : iw * cw = 1) by (unfold iw; field; lra).
  assert (Hiw0 : 0 < iw) by (unfold iw; apply Rdiv_lt_0_compat; lra).
  clearbody iw.
  set (cx := clip_coord mvp x y z 0) in *.
  set (cy := clip_coord mvp x y z 1) in *.
  set (cz := clip_coord mvp x y z 2) in *.
  clearbody cx cy cz cw.
  assert (Nx : -1 <= cx * iw <= 1) by (split; nra).
  assert (Ny : -1 <= cy * iw <= 1) by (split; nra).
  assert (Nz : -1 <= cz * iw <= 1) by (split; nra).
  assert (Nw : 1 / 8 < iw < 1 / 3) by (split; nra).
  repeat split; lra.
Qed.

(** X29. The spinning cube never leaves the screen: with the
    projection and camera of [main], for every frame number and every
    triangle of the loop, the three vertices are transformed without
    error to screen positions in [0, 64] x [0, 64] with depth in [0, 1]
    and perspective weight between 2 and 16/3, all well inside the
    Q15.16 range. *)
Theorem main_cube_on_screen (frame i : nat) :
  In i (py_range 0 36 3) ->
  exists (p v mvp : mat) (v0 v1 v2 : DeviceVertex),
    main_proj = Some p /\ main_view = Some v /\
    frame_mvp p v frame = Some mvp /\
    cube_triangle mvp i = Some (v0, v1, v2) /\
    on_screen v0 /\ on_screen v1 /\ on_screen v2.
Proof.
  intros Hi.
  destruct (frame_clip_bounds frame) as (p & v & mvp & Hp & Hv & Hmvp & Sm & Hb).
  exists p, v, mvp.
  assert (Hvert : forall x y z u w r g b : R,
            x * x = 1 -> y * y = 1 -> z * z = 1 ->
            exists dv : DeviceVertex,
              transform_vertex [x; y; z] [u; w] [r; g; b] mvp = Some dv /\
              on_screen dv).
  { intros x y z u w r g b Hx Hy Hz.
    destruct (Hb x y z Hx Hy Hz) as (Bw & Bx & By & Bz).
    apply transform_vertex_on_screen; assumption. }
  assert (Hcore : exists v0 v1 v2 : DeviceVertex,
            cube_triangle mvp i = Some (v0, v1, v2) /\
            on_screen v0 /\ on_screen v1 /\ on_screen v2);
    [| destruct Hcore as (v0 & v1 & v2 & Ht & O0 & O1 & O2);
       exists v0, v1, v2; auto 10].
  rewrite py_range_triangles in Hi. cbn [In] in Hi.
  unfold cube_triangle.
  repeat (destruct Hi as [<- | Hi]; [
    cbn [Nat.div Nat.divmod fst Nat.add FACE_COLORS CUBE_INDICES
         CUBE_POSITIONS CUBE_UVS lookup list_lookup mbind option_bind];
    repeat match goal with
           | |- context [transform_vertex [?x; ?y; ?z] [?u; ?w] [?r; ?g; ?b] mvp] =>
               let dv := fresh "dv" in
               let E := fresh "E" in
               let O := fresh "O" in
               destruct (Hvert x y z u w r g b ltac:(lra) ltac:(lra) ltac:(lra))
                 as (dv & E & O);
               rewrite E; cbn [mbind option_bind]
           end;
    do 3 eexists; split; [reflexivity |]; split; [eassumption |];
    split; eassumption |]).
  destruct Hi.
Qed.

Lemma main_cube_on_screen_witness :
  exists (p v mvp : mat) (v0 v1 v2 : DeviceVertex),
    main_proj = Some p /\ main_view = Some v /\
    frame_mvp p v 17 = Some mvp /\
    cube_triangle mvp 33 = Some (v0, v1, v2) /\
    on_screen v0 /\ on_screen v1 /\ on_screen v2.
Proof.
  apply (main_cube_on_screen 17 33).
  rewrite py_range_triangles. cbn [In]. lia.
Defined.
